(** * layer-websdk: [src/models/container.js]

    A shallow embedding of [layer.Container], the parent class of
    Conversations and Channels: the create / reconcile protocol ([send],
    [_createResult], [_createSuccess], [_populateFromServer]), the metadata
    patch builders ([setMetadataProperties], [deleteMetadataProperties]), the
    handlers of server pushes ([_handleWebsocketDelete], [_handlePatchEvent],
    [__updateMetadata]) and the cached plain-object view ([toObject]).

    JavaScript values are primitives or references into a store of plain
    objects, so that [===] on objects is identity and aliasing is visible.
    Methods run in a small monad that threads the entity and the store,
    records every call made to a collaborator (client, base classes, [Util])
    in call order, and carries JavaScript exceptions. *)

From Stdlib Require Import ZArith String Ascii List Lia Bool DecimalString.
From stdpp Require Import base option list strings.

Open Scope string_scope.
Open Scope list_scope.

Set Warnings "-register-all".

(** ** JavaScript values and the object store *)

Abbreviation loc := nat.

(** Numbers are the integers among JavaScript's numbers (no NaN, no
    fractions); strings are byte strings. *)
Inductive val :=
| VUndefined
| VNull
| VBool (b : bool)
| VNum (n : Z)
| VStr (s : string)
| VRef (l : loc).

#[global] Instance val_eq_dec : EqDecision val.
Proof. solve_decision. Defined.

(** A plain object: its own enumerable properties in [Object.keys] order. *)
Abbreviation obj := (list (string * val)).

(** The store: location [l] holds the [l]-th allocated object. *)
Abbreviation Heap := (list obj).

(** [a === b]: primitives by value, objects by identity. *)
Definition strict_eq (a b : val) : bool := bool_decide (a = b).

(** ToBoolean. *)
Definition truthy (v : val) : bool :=
  match v with
  | VUndefined | VNull => false
  | VBool b => b
  | VNum n => negb (n =? 0)%Z
  | VStr s => negb (bool_decide (s = EmptyString))
  | VRef _ => true
  end.

(** [o[k]] on the property list of an object; a missing key reads
    [undefined]. *)
Fixpoint field (k : string) (o : obj) : val :=
  match o with
  | [] => VUndefined
  | (k', v) :: o' => if bool_decide (k = k') then v else field k o'
  end.

(** [o[k] = v]: overwrite in place, or append a new key. *)
Fixpoint set_field (k : string) (v : val) (o : obj) : obj :=
  match o with
  | [] => [(k, v)]
  | (k', v') :: o' =>
      if bool_decide (k = k') then (k, v) :: o' else (k', v') :: set_field k v o'
  end.

Inductive exn := TypeError | SyntaxError.

Inductive completion (A : Type) : Type :=
| Normal (a : A)
| Throw (e : exn).
Arguments Normal {A} a.
Arguments Throw {A} e.

(** [v.k] for the property names this file reads ([id], [url], [mode], ...):
    a TypeError on [undefined] and [null], [undefined] on the other
    primitives (none of these names is a property of a boolean, number or
    string), the own property on an object. *)
Definition get_prop (h : Heap) (v : val) (k : string) : completion val :=
  match v with
  | VUndefined | VNull => Throw TypeError
  | VRef l => Normal (from_option (field k) VUndefined (h !! l))
  | _ => Normal VUndefined
  end.

(** [s.indexOf(pat)]: the first position at which [pat] occurs in [s],
    or -1. *)
Fixpoint indexOf_from (i : Z) (s pat : string) : Z :=
  if String.prefix pat s then i
  else match s with
       | EmptyString => (-1)%Z
       | String _ s' => indexOf_from (i + 1) s' pat
       end.

Definition indexOf (s pat : string) : Z := indexOf_from 0 s pat.

(** ** JSON *)

Module JSON.

(** What [JSON.stringify] sees of a value: the store holds plain objects
    only (metadata has no arrays), and numbers are integers that print in
    plain decimal. *)
Inductive json :=
| JNull
| JBool (b : bool)
| JNum (n : Z)
| JStr (s : string)
| JObj (fields : list (string * json)).

(** Reading a value out of the store. The outer [None] is a value that
    cannot be serialised: a cycle ([fuel] nested objects were entered), or
    a location outside the store, which no JavaScript value holds. The
    inner [None] is [undefined], which [JSON.stringify] maps to [undefined]
    at top level and leaves out of an object. *)
Fixpoint to_json (fuel : nat) (h : Heap) (v : val) : option (option json) :=
  match v with
  | VUndefined => Some None
  | VNull => Some (Some JNull)
  | VBool b => Some (Some (JBool b))
  | VNum n => Some (Some (JNum n))
  | VStr s => Some (Some (JStr s))
  | VRef l =>
      match fuel with
      | O => None
      | S fuel' =>
          match h !! l with
          | None => None
          | Some o =>
              match
                (fix props (o : obj) : option (list (string * json)) :=
                   match o with
                   | [] => Some []
                   | (k, x) :: o' =>
                       match to_json fuel' h x with
                       | None => None
                       | Some None => props o'
                       | Some (Some j) =>
                           match props o' with
                           | None => None
                           | Some r => Some ((k, j) :: r)
                           end
                       end
                   end) o
              with
              | None => None
              | Some fs => Some (Some (JObj fs))
              end
          end
      end
  end.

(** A chain of nested objects without a repeated location is at most as
    long as the store. *)
Definition read (h : Heap) (v : val) : option (option json) :=
  to_json (length h) h v.

Definition hex_digit (n : N) : ascii :=
  if (n <? 10)%N then ascii_of_N (48 + n) else ascii_of_N (87 + n).

(** QuoteJSONString, one character. *)
Definition escape (c : ascii) : string :=
  let n := N_of_ascii c in
  let bs := String "092"%char EmptyString in
  if (n =? 8)%N then bs +:+ "b"
  else if (n =? 9)%N then bs +:+ "t"
  else if (n =? 10)%N then bs +:+ "n"
  else if (n =? 12)%N then bs +:+ "f"
  else if (n =? 13)%N then bs +:+ "r"
  else if (n =? 34)%N then bs +:+ String "034"%char EmptyString
  else if (n =? 92)%N then bs +:+ bs
  else if (n <? 32)%N then
    bs +:+ "u00" +:+ String (hex_digit (n / 16)) (String (hex_digit (n mod 16)) EmptyString)
  else String c EmptyString.

Fixpoint escape_all (s : string) : string :=
  match s with
  | EmptyString => EmptyString
  | String c s' => escape c +:+ escape_all s'
  end.

Definition quote (s : string) : string :=
  String "034"%char (escape_all s) +:+ String "034"%char EmptyString.

Definition number_text (n : Z) : string := NilZero.string_of_int (Z.to_int n).

Fixpoint join (sep : string) (l : list string) : string :=
  match l with
  | [] => EmptyString
  | [x] => x
  | x :: l' => x +:+ sep +:+ join sep l'
  end.

Fixpoint text (j : json) : string :=
  match j with
  | JNull => "null"
  | JBool true => "true"
  | JBool false => "false"
  | JNum n => number_text n
  | JStr s => quote s
  | JObj fs =>
      "{" +:+
      join ","
        ((fix members (fs : list (string * json)) : list string :=
            match fs with
            | [] => []
            | (k, x) :: fs' => (quote k +:+ ":" +:+ text x) :: members fs'
            end) fs)
      +:+ "}"
  end.

(** [JSON.stringify(v)]: [undefined] for [undefined], a TypeError on a
    cyclic value. *)
Definition stringify (h : Heap) (v : val) : completion (option string) :=
  match read h v with
  | None => Throw TypeError
  | Some None => Normal None
  | Some (Some j) => Normal (Some (text j))
  end.

(** [JSON.parse(text j)]: the tree [j] built out of fresh objects. *)
Fixpoint alloc (j : json) (h : Heap) : Heap * val :=
  match j with
  | JNull => (h, VNull)
  | JBool b => (h, VBool b)
  | JNum n => (h, VNum n)
  | JStr s => (h, VStr s)
  | JObj fs =>
      let '(h1, o) :=
        (fix members (fs : list (string * json)) (h : Heap) : Heap * obj :=
           match fs with
           | [] => (h, [])
           | (k, x) :: fs' =>
               let '(h', v) := alloc x h in
               let '(h'', o) := members fs' h' in
               (h'', (k, v) :: o)
           end) fs h in
      ((h1 ++ [o])%list, VRef (length h1))
  end.

End JSON.

Module Util.

(** Modelled from the spec: [Util.clone] is defined in [client-utils.js],
    which is not among the sources. It is the deep copy through JSON,
    [JSON.parse(JSON.stringify(v))]: the value is read out of the store and
    built again out of fresh objects; a cyclic value is a TypeError and
    [undefined] a SyntaxError of [JSON.parse]. *)
Definition clone (h : Heap) (v : val) : completion (Heap * val) :=
  match JSON.read h v with
  | None => Throw TypeError
  | Some None => Throw SyntaxError
  | Some (Some j) => Normal (JSON.alloc j h)
  end.

End Util.

(** ** The entity *)

(** Modelled from the spec: the sync states of [const.js] (section 3:
    [NEW], [SYNCING], [SYNCED], [SAVING_PATCH]). *)
Inductive SYNC_STATE := NEW | SYNCING | SYNCED | SAVING_PATCH.

#[global] Instance SYNC_STATE_eq_dec : EqDecision SYNC_STATE.
Proof. solve_decision. Defined.

(** A [Date]: [new Date()] at a clock reading, or [new Date(v)]. *)
Inductive Date :=
| Date_now (clock : Z)
| Date_of (v : val).

(** The fields of a [layer.Container] that the methods below read or
    write; [eventPrefix] stands for [this.constructor.eventPrefix]. *)
Record Container := mkContainer {
  id : val;
  url : val;
  createdAt : option Date;
  metadata : val;
  isCurrentParticipant : bool;
  totalMessageCount : Z;
  syncState : SYNC_STATE;
  isDestroyed : bool;
  isInitializing : bool;
  _inLayerParser : bool;
  _toObject : val;
  eventPrefix : string
}.

(** Field writes. [write_metadata] is the bare write of [metadata]; the
    assignment [this.metadata = v] of the source goes through the setter
    [set_metadata] below. *)
Definition set_id (v : val) (c : Container) : Container :=
  mkContainer v (url c) (createdAt c) (metadata c) (isCurrentParticipant c)
    (totalMessageCount c) (syncState c) (isDestroyed c) (isInitializing c)
    (_inLayerParser c) (_toObject c) (eventPrefix c).

Definition set_url (v : val) (c : Container) : Container :=
  mkContainer (id c) v (createdAt c) (metadata c) (isCurrentParticipant c)
    (totalMessageCount c) (syncState c) (isDestroyed c) (isInitializing c)
    (_inLayerParser c) (_toObject c) (eventPrefix c).

Definition set_createdAt (d : option Date) (c : Container) : Container :=
  mkContainer (id c) (url c) d (metadata c) (isCurrentParticipant c)
    (totalMessageCount c) (syncState c) (isDestroyed c) (isInitializing c)
    (_inLayerParser c) (_toObject c) (eventPrefix c).

Definition write_metadata (v : val) (c : Container) : Container :=
  mkContainer (id c) (url c) (createdAt c) v (isCurrentParticipant c)
    (totalMessageCount c) (syncState c) (isDestroyed c) (isInitializing c)
    (_inLayerParser c) (_toObject c) (eventPrefix c).

Definition set_syncState (s : SYNC_STATE) (c : Container) : Container :=
  mkContainer (id c) (url c) (createdAt c) (metadata c) (isCurrentParticipant c)
    (totalMessageCount c) s (isDestroyed c) (isInitializing c)
    (_inLayerParser c) (_toObject c) (eventPrefix c).

Definition set_isDestroyed (b : bool) (c : Container) : Container :=
  mkContainer (id c) (url c) (createdAt c) (metadata c) (isCurrentParticipant c)
    (totalMessageCount c) (syncState c) b (isInitializing c)
    (_inLayerParser c) (_toObject c) (eventPrefix c).

Definition set__inLayerParser (b : bool) (c : Container) : Container :=
  mkContainer (id c) (url c) (createdAt c) (metadata c) (isCurrentParticipant c)
    (totalMessageCount c) (syncState c) (isDestroyed c) (isInitializing c)
    b (_toObject c) (eventPrefix c).

Definition set__toObject (v : val) (c : Container) : Container :=
  mkContainer (id c) (url c) (createdAt c) (metadata c) (isCurrentParticipant c)
    (totalMessageCount c) (syncState c) (isDestroyed c) (isInitializing c)
    (_inLayerParser c) v (eventPrefix c).

(** [Container.CREATED], [Container.FOUND],
    [Container.FOUND_WITHOUT_REQUESTED_METADATA]. *)
Definition CREATED : string := "Created".
Definition FOUND : string := "Found".
Definition FOUND_WITHOUT_REQUESTED_METADATA : string := "FoundMismatch".

(** The result handed to a request callback, [{ success, data }]. *)
Record Result := mkResult { success : val; data : val }.

(** A patch operation, [{ operation, property, value }]; a delete
    operation has no [value]. *)
Record PatchOp := mkPatchOp {
  operation : string;
  property : string;
  value : option val
}.

(** [JSON.stringify(layerPatchOperations)]: the text of an array of patch
    operations; a property whose value is [undefined] is left out. *)
Definition operation_text (h : Heap) (op : PatchOp) : completion string :=
  let head :=
    JSON.quote "operation" +:+ ":" +:+ JSON.quote (operation op) +:+ "," +:+
    JSON.quote "property" +:+ ":" +:+ JSON.quote (property op) in
  match value op with
  | None => Normal ("{" +:+ head +:+ "}")
  | Some v =>
      match JSON.read h v with
      | None => Throw TypeError
      | Some None => Normal ("{" +:+ head +:+ "}")
      | Some (Some j) =>
          Normal ("{" +:+ head +:+ "," +:+ JSON.quote "value" +:+ ":" +:+
                  JSON.text j +:+ "}")
      end
  end.

Fixpoint operation_texts (h : Heap) (ops : list PatchOp) : completion (list string) :=
  match ops with
  | [] => Normal []
  | op :: ops' =>
      match operation_text h op with
      | Throw e => Throw e
      | Normal t =>
          match operation_texts h ops' with
          | Throw e => Throw e
          | Normal ts => Normal (t :: ts)
          end
      end
  end.

Definition stringify_operations (h : Heap) (ops : list PatchOp) : completion string :=
  match operation_texts h ops with
  | Throw e => Throw e
  | Normal ts => Normal ("[" +:+ JSON.join "," ts +:+ "]")
  end.

(** An object literal handed to a collaborator. *)
Inductive lit :=
| LVal (v : val)
| LObj (fields : list (string * lit))
| LArr (items : list lit).

(** ** Calls to collaborators

    Everything a method does outside the entity and the store, in the order
    in which the source makes the calls. The client's and the base class's
    [_triggerAsync] put the notification on their deferred queue, [trigger]
    dispatches at once. The callees are not among the sources: a call is
    recorded with its arguments and taken to return ([getClient()] to
    return the client). *)
Inductive effect :=
| Client_triggerAsync (evtName : string) (args : lit)
| Client_sendSocketRequest (request : lit)
| Client_updateContainerId (newId oldId : val)
| Client_purgeMessagesByPosition (containerId fromPosition : val)
| Root_triggerAsync (evtName : string) (args : lit)
| Root_trigger (evtName : string) (args : lit)
| Root_destroy
| Syncable_handleWebsocketDelete
| Syncable_xhr (options : lit)
| Syncable_load
| Util_layerParse (operations : list PatchOp)
| This_createResultConflict (conflict : val)
| This_setupMessage (message : val).

(** ** The method monad *)

Record World := mkWorld { this : Container; heap : Heap }.

Record Run (A : Type) := mkRun {
  world : World;
  log : list effect;
  outcome : completion A
}.
Arguments mkRun {A} world log outcome.
Arguments world {A} r.
Arguments log {A} r.
Arguments outcome {A} r.

Definition M (A : Type) : Type := World -> Run A.

Definition ret {A} (a : A) : M A := fun w => mkRun w [] (Normal a).

Definition bind {A B} (m : M A) (k : A -> M B) : M B :=
  fun w =>
    match m w with
    | mkRun w1 l1 (Normal a) =>
        match k a w1 with
        | mkRun w2 l2 o => mkRun w2 (l1 ++ l2)%list o
        end
    | mkRun w1 l1 (Throw e) => mkRun w1 l1 (Throw e)
    end.

Declare Scope js_scope.
Delimit Scope js_scope with js.
Notation "x <- m ;; k" := (bind m (fun x => k))
  (at level 100, m at next level, right associativity) : js_scope.
Notation "m ;; k" := (bind m (fun _ => k))
  (at level 100, right associativity) : js_scope.
Open Scope js_scope.

Definition emit (e : effect) : M unit := fun w => mkRun w [e] (Normal tt).

Definition gets {A} (f : Container -> A) : M A :=
  fun w => mkRun w [] (Normal (f (this w))).

Definition modify (f : Container -> Container) : M unit :=
  fun w => mkRun (mkWorld (f (this w)) (heap w)) [] (Normal tt).

(** A store computation that may throw. *)
Definition lift {A} (f : Heap -> completion A) : M A :=
  fun w => mkRun w [] (f (heap w)).

Definition when (b : bool) (m : M unit) : M unit := if b then m else ret tt.

(** ** The methods of [container.js] *)

Section Methods.

(** [Util.typeFromID] ([client-utils.js]) and
    [Constants.DELETION_MODE.MY_DEVICES] ([const.js]) are not among the
    sources; the methods are read for any value of them. *)
Variable typeFromID : val -> string.
Variable MY_DEVICES : string.

(** *** What the base classes provide *)

(** Modelled from the spec: [Syncable.isNew] is not among the sources;
    section 4.2 has [send] legal only from [NEW]. *)
Definition isNew : M bool :=
  gets (fun c => bool_decide (syncState c = NEW)).

(** Modelled from the spec: [Syncable._setSyncing] is not among the
    sources; section 4.2 has [send] move the entity to [SYNCING]. *)
Definition _setSyncing : M unit := modify (set_syncState SYNCING).

(** Modelled from the spec: [Syncable._setSynced] is not among the
    sources; section 3 has reconciliation move the entity to [SYNCED]. *)
Definition _setSynced : M unit := modify (set_syncState SYNCED).

(** Modelled from the spec: [Root.destroy] is not among the sources;
    section 3 has [isDestroyed] as the terminal flag that destruction
    sets. What else the base class does on the way is its own. *)
Definition destroy : M unit :=
  emit Root_destroy ;; modify (set_isDestroyed true).

(** Modelled from the spec: [Syncable._handleWebsocketDelete] is not
    among the sources; section 4.4 has it as the full local teardown,
    equivalent to destroy. *)
Definition super_handleWebsocketDelete : M unit :=
  emit Syncable_handleWebsocketDelete ;; modify (set_isDestroyed true).

(** Modelled from the spec: [_clearObject] is inherited and not among the
    sources; it drops the cached result of [toObject] (the field comment of
    [_toObject], lines 526-531: caches last result of toObject()). *)
Definition _clearObject : M unit := modify (set__toObject VNull).

(** Modelled from the spec: [Root.toObject] is not among the sources; per
    the doc comment of [toObject] (lines 438-447) it is a new plain object
    with the public properties of the instance, copied as they are. *)
Definition super_toObject : M val :=
  fun w =>
    let c := this w in
    let o := [("id", id c); ("url", url c); ("metadata", metadata c);
              ("isCurrentParticipant", VBool (isCurrentParticipant c));
              ("totalMessageCount", VNum (totalMessageCount c));
              ("isDestroyed", VBool (isDestroyed c))] in
    mkRun (mkWorld c (heap w ++ [o])%list) [] (Normal (VRef (length (heap w)))).

(** [r.k = v] on a value held in a variable: a TypeError on [undefined]
    and [null], nothing on the other primitives. *)
Definition set_prop (r : val) (k : string) (v : val) : M unit :=
  fun w =>
    match r with
    | VUndefined | VNull => mkRun w [] (Throw TypeError)
    | VRef l =>
        mkRun (mkWorld (this w) (alter (set_field k v) l (heap w))) [] (Normal tt)
    | _ => mkRun w [] (Normal tt)
    end.

Definition Util_clone (v : val) : M val :=
  fun w =>
    match Util.clone (heap w) v with
    | Normal (h', v') => mkRun (mkWorld (this w) h') [] (Normal v')
    | Throw e => mkRun w [] (Throw e)
    end.

Definition JSON_stringify (v : val) : M (option string) :=
  lift (fun h => JSON.stringify h v).

(** *** [_triggerAsync], [trigger] (lines 398-406) *)

Definition _triggerAsync (evtName : string) (args : lit) : M unit :=
  _clearObject ;;
  emit (Root_triggerAsync evtName args).

Definition trigger (evtName : string) (args : lit) : M unit :=
  _clearObject ;;
  emit (Root_trigger evtName args).

(** *** [__updateMetadata] (lines 420-430)

    [paths] is [None] when the caller passes two arguments. *)
Definition paths_lit (paths : option (list string)) : lit :=
  match paths with
  | None => LVal VUndefined
  | Some ps => LArr (map (fun p => LVal (VStr p)) ps)
  end.

Definition __updateMetadata (newValue oldValue : val)
    (paths : option (list string)) : M unit :=
  inParser <- gets _inLayerParser ;;
  if inParser then ret tt
  else
    n <- JSON_stringify newValue ;;
    o <- JSON_stringify oldValue ;;
    when (negb (bool_decide (n = o)))
      (prefix <- gets eventPrefix ;;
       _triggerAsync (prefix +:+ ":change")
         (LObj [("property", LVal (VStr "metadata"));
                ("newValue", LVal newValue);
                ("oldValue", LVal oldValue);
                ("paths", paths_lit paths)])).

(** Modelled from the spec: the setter behind [this.metadata = v] is
    installed by [Root.initClass], which is not among the sources. Section 9
    has any property write trigger the hook named after the property, and
    the comment above [__updateMetadata] (lines 408-414) has any change of
    the metadata property call it; the constructor (lines 45-59) raises
    [isInitializing] around its own writes. *)
Definition set_metadata (inValue : val) : M unit :=
  initial <- gets metadata ;;
  when (negb (strict_eq inValue initial))
    (modify (write_metadata inValue) ;;
     init <- gets isInitializing ;;
     when (negb init) (__updateMetadata inValue initial None)).

(** *** [_handlePatchEvent] (lines 432-436) *)

Definition _handlePatchEvent (newValue oldValue : val)
    (paths : list string) : M unit :=
  match paths with
  | [] => fun w => mkRun w [] (Throw TypeError)
  | p :: _ =>
      when (indexOf p "metadata" =? 0)%Z
        (__updateMetadata newValue oldValue (Some paths))
  end.

(** *** [send] (lines 63-87); [now] is the clock read by [new Date()]. *)

Definition send (now : Z) (message : val) : M unit :=
  new <- isNew ;;
  when new
    (modify (set_createdAt (Some (Date_now now))) ;;
     _setSyncing ;;
     i <- gets id ;;
     emit (Client_triggerAsync "state-change"
             (LObj [("started", LVal (VBool true));
                    ("type", LVal (VStr ("send_" +:+ typeFromID i)));
                    ("telemetryId",
                     LVal (VStr ("send_" +:+ typeFromID i +:+ "_time")));
                    ("id", LVal i)])) ;;
     i <- gets id ;;
     emit (Client_sendSocketRequest
             (LObj [("method", LVal (VStr "POST"));
                    ("body", LObj []);
                    ("sync", LObj [("depends", LVal i); ("target", LVal i)])]))) ;;
  when (truthy message) (emit (This_setupMessage message)).

(** *** [_populateFromServer] (lines 99-120) *)

Definition _populateFromServer (container : val) : M unit :=
  _setSynced ;;
  id0 <- gets id ;;
  i <- lift (fun h => get_prop h container "id") ;;
  modify (set_id i) ;;
  id1 <- gets id ;;
  when (negb (strict_eq id0 id1))
    (emit (Client_updateContainerId id1 id0) ;;
     prefix <- gets eventPrefix ;;
     id1 <- gets id ;;
     _triggerAsync (prefix +:+ ":change")
       (LObj [("oldValue", LVal id0);
              ("newValue", LVal id1);
              ("property", LVal (VStr "id"))])) ;;
  u <- lift (fun h => get_prop h container "url") ;;
  modify (set_url u) ;;
  t <- lift (fun h => get_prop h container "created_at") ;;
  modify (set_createdAt (Some (Date_of t))) ;;
  m <- lift (fun h => get_prop h container "metadata") ;;
  set_metadata m.

(** *** [_createSuccess] (lines 162-168) *)

Definition _createSuccess (data : val) : M unit :=
  id0 <- gets id ;;
  _populateFromServer data ;;
  prefix <- gets eventPrefix ;;
  id1 <- gets id ;;
  _triggerAsync (prefix +:+ ":sent")
    (LObj [("result", LVal (VStr (if strict_eq id0 id1 then CREATED else FOUND)))]).

(** *** [_createResult] (lines 136-152) *)

Definition _createResult (result : Result) : M unit :=
  i <- gets id ;;
  emit (Client_triggerAsync "state-change"
          (LObj [("ended", LVal (VBool true));
                 ("type", LVal (VStr ("send_" +:+ typeFromID i)));
                 ("telemetryId",
                  LVal (VStr ("send_" +:+ typeFromID i +:+ "_time")));
                 ("id", LVal i)])) ;;
  destroyed <- gets isDestroyed ;;
  if destroyed then ret tt
  else if truthy (success result) then _createSuccess (data result)
  else
    i <- lift (fun h => get_prop h (data result) "id") ;;
    if strict_eq i (VStr "conflict") then
      emit (This_createResultConflict (data result))
    else
      prefix <- gets eventPrefix ;;
      trigger (prefix +:+ ":sent-error") (LObj [("error", LVal (data result))]) ;;
      destroy.

(** *** [setMetadataProperties] (lines 222-262) *)

(** The [forEach] over [Object.keys(props)]. *)
Definition set_operations (props : obj) : list PatchOp :=
  flat_map
    (fun name =>
       if truthy (VStr name) then
         let fullName :=
           if negb (bool_decide (name = "metadata"))
              && negb (indexOf name "metadata." =? 0)%Z
           then "metadata." +:+ name
           else name in
         [mkPatchOp "set" fullName (Some (field name props))]
       else [])
    (map fst props).

Definition patch_request (body : string) : lit :=
  LObj [("url", LVal (VStr EmptyString));
        ("method", LVal (VStr "PATCH"));
        ("data", LVal (VStr body));
        ("headers",
         LObj [("content-type", LVal (VStr "application/vnd.layer-patch+json"))])].

Definition setMetadataProperties (props : obj) : M unit :=
  let layerPatchOperations := set_operations props in
  modify (set__inLayerParser true) ;;
  emit (Util_layerParse layerPatchOperations) ;;
  modify (set__inLayerParser false) ;;
  body <- lift (fun h => stringify_operations h layerPatchOperations) ;;
  emit (Syncable_xhr (patch_request body)).

(** The callback handed to [_xhr] (lines 257-259). *)
Definition setMetadataProperties_callback (result : Result) : M unit :=
  if negb (truthy (success result)) then
    destroyed <- gets isDestroyed ;;
    if negb destroyed then
      i <- lift (fun h => get_prop h (data result) "id") ;;
      when (negb (strict_eq i (VStr "authentication_required")))
        (emit Syncable_load)
    else ret tt
  else ret tt.

(** *** [deleteMetadataProperties] (lines 289-325) *)

Definition delete_operations (props : list string) : list PatchOp :=
  map
    (fun property =>
       let property :=
         if negb (bool_decide (property = "metadata"))
            && negb (indexOf property "metadata." =? 0)%Z
         then "metadata." +:+ property
         else property in
       mkPatchOp "delete" property None)
    props.

Definition deleteMetadataProperties (props : list string) : M unit :=
  let layerPatchOperations := delete_operations props in
  modify (set__inLayerParser true) ;;
  emit (Util_layerParse layerPatchOperations) ;;
  modify (set__inLayerParser false) ;;
  body <- lift (fun h => stringify_operations h layerPatchOperations) ;;
  emit (Syncable_xhr (patch_request body)).

(** The callback handed to [_xhr] (lines 320-322). *)
Definition deleteMetadataProperties_callback (result : Result) : M unit :=
  if negb (truthy (success result)) then
    i <- lift (fun h => get_prop h (data result) "id") ;;
    when (negb (strict_eq i (VStr "authentication_required")))
      (emit Syncable_load)
  else ret tt.

(** *** [_handleWebsocketDelete] (lines 349-355) *)

Definition _handleWebsocketDelete (data : val) : M unit :=
  mode <- lift (fun h => get_prop h data "mode") ;;
  if strict_eq mode (VStr MY_DEVICES) then
    position <- lift (fun h => get_prop h data "from_position") ;;
    if truthy position then
      i <- gets id ;;
      position <- lift (fun h => get_prop h data "from_position") ;;
      emit (Client_purgeMessagesByPosition i position)
    else super_handleWebsocketDelete
  else super_handleWebsocketDelete.

(** *** [toObject] (lines 448-454) *)

Definition toObject : M val :=
  cached <- gets _toObject ;;
  when (negb (truthy cached))
    (o <- super_toObject ;;
     modify (set__toObject o) ;;
     target <- gets _toObject ;;
     m <- gets metadata ;;
     copy <- Util_clone m ;;
     set_prop target "metadata" copy) ;;
  gets _toObject.

End Methods.

(** * Vocabulary of the properties *)

(** ** Notifications *)

(** The client's [state-change] notification of a create under the id
    [i]; [flag] is [started] or [ended]. *)
Definition state_change (typeFromID : val -> string) (flag : string) (i : val) :
    effect :=
  Client_triggerAsync "state-change"
    (LObj [(flag, LVal (VBool true));
           ("type", LVal (VStr ("send_" +:+ typeFromID i)));
           ("telemetryId", LVal (VStr ("send_" +:+ typeFromID i +:+ "_time")));
           ("id", LVal i)]).

(** The completion notification of a create. *)
Definition sent (c : Container) (tag : string) : effect :=
  Root_triggerAsync (eventPrefix c +:+ ":sent")
    (LObj [("result", LVal (VStr tag))]).

(** The notification of a failed create. *)
Definition sent_error (c : Container) (error : val) : effect :=
  Root_trigger (eventPrefix c +:+ ":sent-error") (LObj [("error", LVal error)]).

(** The notification of a changed [id]. *)
Definition id_change (c : Container) (oldId newId : val) : effect :=
  Root_triggerAsync (eventPrefix c +:+ ":change")
    (LObj [("oldValue", LVal oldId); ("newValue", LVal newId);
           ("property", LVal (VStr "id"))]).

(** The notification of changed metadata. *)
Definition metadata_change (c : Container) (newValue oldValue : val)
    (paths : list string) : effect :=
  Root_triggerAsync (eventPrefix c +:+ ":change")
    (LObj [("property", LVal (VStr "metadata"));
           ("newValue", LVal newValue);
           ("oldValue", LVal oldValue);
           ("paths", LArr (map (fun p => LVal (VStr p)) paths))]).

(** ** Paths *)

(** A path that already addresses metadata. *)
Definition rooted (path : string) : Prop :=
  path = "metadata" \/ exists rest, path = "metadata." +:+ rest.

(** The property of the operation built for [path]. *)
Definition normalised (path : string) (op : PatchOp) : Prop :=
  (rooted path -> property op = path) /\
  (~ rooted path -> property op = "metadata." +:+ path).

(** In the words of the specification: the first segment of a dotted path,
    up to its first dot. *)
Fixpoint spec_first_segment (path : string) : string :=
  match path with
  | EmptyString => EmptyString
  | String c rest =>
      if Ascii.eqb c "."%char then EmptyString
      else String c (spec_first_segment rest)
  end.

(** ** Histories *)

(** What can happen to an entity between [send] and the arrival of the
    create-result: any other method of the class. *)
Inductive call :=
| Call_send (now : Z) (message : val)
| Call_setMetadataProperties (props : obj)
| Call_setMetadataProperties_callback (result : Result)
| Call_deleteMetadataProperties (paths : list string)
| Call_deleteMetadataProperties_callback (result : Result)
| Call_handleWebsocketDelete (data : val)
| Call_handlePatchEvent (newValue oldValue : val) (paths : list string)
| Call_trigger (evtName : string) (args : lit)
| Call_triggerAsync (evtName : string) (args : lit)
| Call_toObject.

Definition perform (typeFromID : val -> string) (MY_DEVICES : string)
    (c : call) : M unit :=
  match c with
  | Call_send now message => send typeFromID now message
  | Call_setMetadataProperties props => setMetadataProperties props
  | Call_setMetadataProperties_callback r => setMetadataProperties_callback r
  | Call_deleteMetadataProperties paths => deleteMetadataProperties paths
  | Call_deleteMetadataProperties_callback r => deleteMetadataProperties_callback r
  | Call_handleWebsocketDelete d => _handleWebsocketDelete MY_DEVICES d
  | Call_handlePatchEvent n o paths => _handlePatchEvent n o paths
  | Call_trigger e a => trigger e a
  | Call_triggerAsync e a => _triggerAsync e a
  | Call_toObject => (_ <- toObject ;; ret tt)
  end.

(** The entity after a sequence of calls; a call that throws leaves the
    entity as it was at the throw. *)
Fixpoint perform_all (typeFromID : val -> string) (MY_DEVICES : string)
    (cs : list call) (w : World) : World :=
  match cs with
  | [] => w
  | c :: cs' =>
      perform_all typeFromID MY_DEVICES cs'
        (world (perform typeFromID MY_DEVICES c w))
  end.

(** ** The store *)

(** The inner loops of [JSON.to_json] and [JSON.alloc], by name. *)
Definition to_json_props (fuel : nat) (h : Heap) :
    obj -> option (list (string * JSON.json)) :=
  fix props (o : obj) :=
    match o with
    | [] => Some []
    | (k, x) :: o' =>
        match JSON.to_json fuel h x with
        | None => None
        | Some None => props o'
        | Some (Some j) =>
            match props o' with
            | None => None
            | Some r => Some ((k, j) :: r)
            end
        end
    end.

Definition alloc_members :
    list (string * JSON.json) -> Heap -> Heap * obj :=
  fix members (fs : list (string * JSON.json)) (h : Heap) :=
    match fs with
    | [] => (h, [])
    | (k, x) :: fs' =>
        let '(h', v) := JSON.alloc x h in
        let '(h'', o) := members fs' h' in
        (h'', (k, v) :: o)
    end.

(** The number of objects in a tree. *)
Fixpoint objects (j : JSON.json) : nat :=
  match j with
  | JSON.JObj fs =>
      S ((fix sum (fs : list (string * JSON.json)) : nat :=
            match fs with
            | [] => 0
            | (_, x) :: fs' => objects x + sum fs'
            end) fs)
  | _ => 0
  end.

Definition objects_members : list (string * JSON.json) -> nat :=
  fix sum (fs : list (string * JSON.json)) : nat :=
    match fs with
    | [] => 0
    | (_, x) :: fs' => objects x + sum fs'
    end.

(** Induction on a tree, with the property at hand for every member of an
    object. *)
Section json_induction.

Variable P : JSON.json -> Prop.
Hypothesis HNull : P JSON.JNull.
Hypothesis HBool : forall b, P (JSON.JBool b).
Hypothesis HNum : forall n, P (JSON.JNum n).
Hypothesis HStr : forall s, P (JSON.JStr s).
Hypothesis HObj :
  forall fs, Forall (fun kx => P (snd kx)) fs -> P (JSON.JObj fs).

Fixpoint json_nested_ind (j : JSON.json) : P j :=
  match j with
  | JSON.JNull => HNull
  | JSON.JBool b => HBool b
  | JSON.JNum n => HNum n
  | JSON.JStr s => HStr s
  | JSON.JObj fs =>
      HObj fs
        ((fix all (fs : list (string * JSON.json)) :
            Forall (fun kx => P (snd kx)) fs :=
            match fs with
            | [] => @List.Forall_nil _ (fun kx => P (snd kx))
            | kx :: fs' =>
                @List.Forall_cons _ (fun kx => P (snd kx)) kx fs'
                  (json_nested_ind (snd kx)) (all fs')
            end) fs)
  end.

End json_induction.

(** [h2] holds every object of [h], where [h] holds it. *)
Definition included (h h2 : Heap) : Prop :=
  forall l o, h !! l = Some o -> h2 !! l = Some o.

(** [H] holds the objects of [h] from location [n] on. *)
Definition agrees_from (n : nat) (H h : Heap) : Prop :=
  forall l, n <= l -> l < length h -> H !! l = h !! l.

(** What [JSON.alloc] builds: it only appends to the store, one object per
    object of the tree; the value it returns reads back as the tree, and
    that reading depends on the appended objects alone. *)
Definition alloc_spec (j : JSON.json) : Prop :=
  forall h,
    exists ext,
      fst (JSON.alloc j h) = h ++ ext /\
      length ext = objects j /\
      (forall l, snd (JSON.alloc j h) = VRef l -> length h <= l) /\
      forall H fuel,
        agrees_from (length h) H (fst (JSON.alloc j h)) ->
        objects j <= fuel ->
        JSON.to_json fuel H (snd (JSON.alloc j h)) = Some (Some j).

(** ** Sample entities

    A new conversation [local-1] whose metadata is [{a: "1"}], and a store
    holding that metadata (0), a server description under another id (1)
    with its metadata (2), and a server description under the local id
    (3); the same entity facing a server error. *)

Definition sample_typeFromID (_ : val) : string := "conversations".

Definition sample_heap : Heap :=
  [ [("a", VStr "1")];
    [("id", VStr "server-9"); ("url", VStr "/c/9");
     ("created_at", VStr "2016-01-01T00:00:00Z"); ("metadata", VRef 2)];
    [("a", VStr "1")];
    [("id", VStr "local-1"); ("url", VStr "/c/1");
     ("created_at", VStr "2016-01-01T00:00:00Z"); ("metadata", VRef 0)] ].

Definition sample_new : Container :=
  mkContainer (VStr "local-1") VNull (Some (Date_now 5)) (VRef 0) true 0
    NEW false false false VNull "conversations".

Definition sample_world : World := mkWorld sample_new sample_heap.

Definition sample_destroyed : World :=
  mkWorld (set_isDestroyed true sample_new) sample_heap.

Definition sample_error_heap : Heap :=
  [ [("a", VStr "1")];
    [("id", VStr "internal_server_error"); ("message", VStr "try later")] ].

Definition sample_error_world (destroyed : bool) : World :=
  mkWorld (set_isDestroyed destroyed sample_new) sample_error_heap.

(** ** Running a method symbolically *)

Ltac js_unfold :=
  unfold _createResult, _createSuccess, _populateFromServer, set_metadata,
    _handlePatchEvent, __updateMetadata, _handleWebsocketDelete,
    super_handleWebsocketDelete, send, isNew, _setSyncing,
    setMetadataProperties, setMetadataProperties_callback,
    deleteMetadataProperties, deleteMetadataProperties_callback,
    _triggerAsync, trigger, _clearObject, _setSynced, destroy,
    JSON_stringify, JSON.stringify, when, bind, gets, emit, modify, lift, ret.

(** Split on the innermost condition the run is waiting for. *)
Ltac js_case :=
  match goal with
  | |- context [match ?x with _ => _ end] =>
      lazymatch x with
      | context [match _ with _ => _ end] => fail
      | negb ?y => destruct y eqn:?; cbn
      | _ => destruct x eqn:?; cbn
      end
  end.

Ltac js_run := js_unfold; cbn; repeat js_case.

Ltac js_unfold_toObject :=
  unfold toObject, super_toObject, Util_clone, set_prop.

Ltac toObject_unfold :=
  unfold toObject, super_toObject, Util_clone, set_prop, _clearObject,
    when, bind, gets, modify, ret.

(** * The rest of the class *)

(** ** [_delete] and [on] *)

Section Collaborators.

(** [_deleted] is the subclass's, [Util.defer] belongs to
    [client-utils.js], [on] and the getter [isLoading] to the base classes:
    none is among the sources. The two methods are read for any computation
    in the place of the first three and any reading of the entity in the
    place of the last. *)
Variable _deleted : M unit.
Variable Util_defer : val -> val -> M unit.
Variable super_on : val -> val -> val -> M unit.
Variable isLoading : Container -> bool.

(** [_delete] (lines 338-347). The id read first is only kept for the
    callback of the request. *)
Definition _delete (queryStr : string) : M unit :=
  emit (Syncable_xhr
          (LObj [("method", LVal (VStr "DELETE"));
                 ("url", LVal (VStr ("?" +:+ queryStr)))])) ;;
  _deleted ;;
  destroy.

(** [typeof v === 'object']. *)
Definition typeof_object (v : val) : bool :=
  match v with
  | VNull | VRef _ => true
  | _ => false
  end.

(** [on] (lines 385-396). [Util_defer callNow context] stands for
    [Util.defer(() => callNow.apply(context))]. *)
Definition on (name callback context : val) : M unit :=
  prefix <- gets eventPrefix ;;
  let evtName := prefix +:+ ":loaded" in
  hasLoadedEvt <-
    (if strict_eq name (VStr evtName) then ret (VBool true)
     else if truthy name then
       if typeof_object name then lift (fun h => get_prop h name evtName)
       else ret (VBool false)
     else ret name) ;;
  loading <- gets isLoading ;;
  when (truthy hasLoadedEvt && negb loading)
    (callNow <-
       (if strict_eq name (VStr evtName) then ret callback
        else lift (fun h => get_prop h name evtName)) ;;
     Util_defer callNow context) ;;
  super_on name callback context.

End Collaborators.

(** ** Histories of an entity *)

(** One step in the life of an entity: a method a user or the client calls,
    or the arrival of a create-result or of a server description. *)
Inductive step :=
| Step_call (c : call)
| Step_createResult (result : Result)
| Step_populateFromServer (container : val).

Definition run_step (typeFromID : val -> string) (MY_DEVICES : string)
    (s : step) : M unit :=
  match s with
  | Step_call c => perform typeFromID MY_DEVICES c
  | Step_createResult r => _createResult typeFromID r
  | Step_populateFromServer d => _populateFromServer d
  end.

(** The entity after a history and every call made on the way; a step that
    throws leaves the entity as it was at the throw. *)
Fixpoint run_steps (typeFromID : val -> string) (MY_DEVICES : string)
    (ss : list step) (w : World) : World * list effect :=
  match ss with
  | [] => (w, [])
  | s :: ss' =>
      let r := run_step typeFromID MY_DEVICES s w in
      let '(w', l) := run_steps typeFromID MY_DEVICES ss' (world r) in
      (w', log r ++ l)
  end.

Definition is_create_request (e : effect) : bool :=
  match e with
  | Client_sendSocketRequest _ => true
  | _ => false
  end.

(** A notification on the entity itself, at once or deferred. *)
Definition is_notification (e : effect) : bool :=
  match e with
  | Root_trigger _ _ | Root_triggerAsync _ _ => true
  | _ => false
  end.

(** The failure a callback is given when the session has expired. *)
Definition authentication_required : val := VStr "authentication_required".

(** A store with a cycle: the object at 0 holds itself. *)
Definition sample_cyclic_heap : Heap := [[("self", VRef 0)]].

Definition sample_cyclic_world : World := mkWorld sample_new sample_cyclic_heap.



(** An event map [{"conversations:loaded": f}] at 1, [f] being the object
    at 0. *)
Definition sample_listener_heap : Heap :=
  [ []; [("conversations:change", VRef 0); ("conversations:loaded", VRef 0)] ].

Definition sample_listener_world : World := mkWorld sample_new sample_listener_heap.

(** ** Vocabulary of the further properties *)


(** The entity after a patch method: the parser flag is down. *)
Definition after_patch (w : World) : World :=
  mkWorld (set__inLayerParser false (this w)) (heap w).

(** A call that re-registers the entity or reports a changed id. *)
Definition is_identity_change (e : effect) : bool :=
  match e with
  | Client_updateContainerId _ _ => true
  | Root_triggerAsync _
      (LObj [("oldValue", _); ("newValue", _); ("property", LVal (VStr "id"))]) =>
      true
  | _ => false
  end.

(** How many times [sendSocketRequest] is called among the calls [l]. *)
Definition create_requests (l : list effect) : nat :=
  length (List.filter is_create_request l).

(** Closes the cases of a step that are settled by the test of [isNew]. *)
Ltac sync_close :=
  repeat split; intros; try lia; try discriminate; try assumption;
  try (match goal with
       | H : bool_decide _ = true |- _ => apply bool_decide_eq_true in H
       end; contradiction);
  try (match goal with
       | H : bool_decide _ = false |- _ => apply bool_decide_eq_false in H
       end; assumption).

(** Stand-ins for [Util.defer] and the base class's [on] in examples: the
    first records the deferred call as a notification named [deferred], the
    second does nothing. *)
Definition sample_defer (f context : val) : M unit :=
  emit (Root_triggerAsync "deferred" (LArr [LVal f; LVal context])).

Definition sample_super_on (name callback context : val) : M unit := ret tt.

(** * Properties *)

(** ** Strings *)

Lemma prefix_append (p s : string) :
  String.prefix p s = true <-> exists rest, s = p +:+ rest.
Proof.
  revert s. induction p as [|a p IH]; intros s.
  - split; [intros _; exists s; reflexivity | intros _; now destruct s].
  - destruct s as [|b s]; simpl.
    + split; [discriminate | intros [rest H]; discriminate].
    + destruct (ascii_dec a b) as [->|Hab].
      * rewrite IH. split; intros [rest H]; exists rest.
        -- now rewrite H.
        -- now inversion H.
      * split; [discriminate | intros [rest H]; injection H; congruence].
Qed.

Lemma indexOf_from_eq (i : Z) (s pat : string) :
  indexOf_from i s pat =
  if String.prefix pat s then i
  else match s with
       | EmptyString => (-1)%Z
       | String _ s' => indexOf_from (i + 1) s' pat
       end.
Proof. destruct s; reflexivity. Qed.

Lemma indexOf_from_range (i : Z) (s pat : string) :
  indexOf_from i s pat = (-1)%Z \/ (i <= indexOf_from i s pat)%Z.
Proof.
  revert i. induction s as [|a s IH]; intros i; rewrite indexOf_from_eq;
    destruct (String.prefix pat _); try (right; lia); [now left |].
  destruct (IH (i + 1)%Z) as [H|H]; [now left | right; lia].
Qed.

(** [s.indexOf(pat) === 0] says that [s] begins with [pat]. *)
Lemma indexOf_zero (s pat : string) :
  (indexOf s pat =? 0)%Z = String.prefix pat s.
Proof.
  unfold indexOf. rewrite indexOf_from_eq.
  destruct (String.prefix pat s); [reflexivity |].
  destruct s as [|a s]; [reflexivity |].
  apply Z.eqb_neq. destruct (indexOf_from_range (0 + 1) s pat) as [H|H]; lia.
Qed.

(** The prefixing test of both builders. *)
Lemma prefixing_test (name : string) :
  negb (bool_decide (name = "metadata"))
  && negb (indexOf name "metadata." =? 0)%Z = false <-> rooted name.
Proof.
  rewrite indexOf_zero. unfold rooted. rewrite <- prefix_append.
  destruct (String.prefix "metadata." name); case_bool_decide; simpl;
    intuition congruence.
Qed.

Lemma prefixed_rooted (name : string) : rooted ("metadata." +:+ name).
Proof. right. now exists name. Qed.

(** ** The patch builders *)

Lemma rooted_nonempty (path : string) : rooted path -> path <> EmptyString.
Proof. intros [->|[rest ->]]; discriminate. Qed.

Lemma set_operations_keys (props : obj) (keys : list string) :
  Forall2
    (fun name op =>
       operation op = "set" /\ value op = Some (field name props) /\
       normalised name op)
    (filter (fun name => name <> EmptyString) keys)
    (flat_map
       (fun name =>
          if truthy (VStr name) then
            [mkPatchOp "set"
               (if negb (bool_decide (name = "metadata"))
                   && negb (indexOf name "metadata." =? 0)%Z
                then "metadata." +:+ name else name)
               (Some (field name props))]
          else [])
       keys).
Proof.
  induction keys as [|name keys IH]; [constructor |].
  rewrite filter_cons. cbn [flat_map truthy].
  case_decide as Hne; case_bool_decide as He; try contradiction; cbn [negb app].
  - constructor; [|exact IH]. cbn. repeat split; try reflexivity.
    + intros Hr. apply prefixing_test in Hr. now rewrite Hr.
    + intros Hr. destruct (_ && _) eqn:E; [reflexivity |].
      now apply prefixing_test in E.
  - exact IH.
Qed.

Lemma delete_operations_paths (paths : list string) :
  Forall2
    (fun name op =>
       operation op = "delete" /\ value op = None /\ normalised name op)
    paths (delete_operations paths).
Proof.
  induction paths as [|name paths IH]; [constructor |].
  constructor; [|exact IH]. cbn. repeat split; try reflexivity.
  - intros Hr. apply prefixing_test in Hr. now rewrite Hr.
  - intros Hr. destruct (_ && _) eqn:E; [reflexivity |].
    now apply prefixing_test in E.
Qed.

Lemma delete_operations_rooted (paths : list string) :
  Forall rooted (map property (delete_operations paths)).
Proof.
  induction paths as [|name paths IH]; [constructor |].
  constructor; [|exact IH]. cbn.
  destruct (_ && _) eqn:E; [apply prefixed_rooted | now apply prefixing_test].
Qed.

Lemma set_operations_rooted (props : obj) :
  Forall rooted (map property (set_operations props)).
Proof.
  unfold set_operations. induction (map fst props) as [|name keys IH];
    [constructor |].
  cbn [flat_map]. destruct (truthy (VStr name)); [|exact IH].
  constructor; [|exact IH]. cbn.
  destruct (_ && _) eqn:E; [apply prefixed_rooted | now apply prefixing_test].
Qed.

Lemma delete_operations_fixed (paths : list string) :
  Forall rooted paths ->
  map property (delete_operations paths) = paths.
Proof.
  induction 1 as [|name paths Hr _ IH]; [reflexivity |].
  cbn. apply prefixing_test in Hr. rewrite Hr. now f_equal.
Qed.

Lemma set_operations_fixed (props : obj) :
  Forall rooted (map fst props) ->
  map property (set_operations props) = map fst props.
Proof.
  unfold set_operations. remember (map fst props) as keys eqn:E. clear E.
  induction 1 as [|name keys Hr _ IH]; [reflexivity |].
  cbn [flat_map truthy]. pose proof (rooted_nonempty _ Hr) as Hne.
  case_bool_decide; [contradiction |]. cbn.
  apply prefixing_test in Hr. rewrite Hr. now f_equal.
Qed.

(** C5. Every operation built by [setMetadataProperties] (one per key
    that is not the empty string) and by [deleteMetadataProperties] (one per
    path) has as property the path itself when the path is [metadata] or
    begins with [metadata.], and [metadata.] followed by the path otherwise;
    these are the operations handed to the patch parser; and building again
    from the properties of built operations leaves them as they are. *)
Theorem C5_patch_paths_rooted_once :
  (forall props : obj,
     Forall2
       (fun name op =>
          operation op = "set" /\ value op = Some (field name props) /\
          normalised name op)
       (filter (fun name => name <> EmptyString) (map fst props))
       (set_operations props)) /\
  (forall paths : list string,
     Forall2
       (fun name op =>
          operation op = "delete" /\ value op = None /\ normalised name op)
       paths (delete_operations paths)) /\
  (forall (props : obj) (w : World),
     exists rest,
       log (setMetadataProperties props w) =
       Util_layerParse (set_operations props) :: rest) /\
  (forall (paths : list string) (w : World),
     exists rest,
       log (deleteMetadataProperties paths w) =
       Util_layerParse (delete_operations paths) :: rest) /\
  (forall paths : list string,
     map property (delete_operations (map property (delete_operations paths))) =
     map property (delete_operations paths)) /\
  (forall props : obj,
     map property
       (set_operations
          (map (fun op => (property op, VNull)) (set_operations props))) =
     map property (set_operations props)).
Proof.
  split; [|split; [|split; [|split; [|split]]]].
  - intros props. apply set_operations_keys.
  - apply delete_operations_paths.
  - intros props w. unfold setMetadataProperties, bind. cbn.
    destruct (stringify_operations _ _); cbn; eauto.
  - intros paths w. unfold deleteMetadataProperties, bind. cbn.
    destruct (stringify_operations _ _); cbn; eauto.
  - intros paths.
    apply delete_operations_fixed, delete_operations_rooted.
  - intros props.
    assert (E : map fst (map (fun op => (property op, VNull)) (set_operations props))
                = map property (set_operations props))
      by (rewrite map_map; reflexivity).
    rewrite set_operations_fixed; rewrite E;
      [reflexivity | apply set_operations_rooted].
Qed.

(** ** Values and event names *)

Lemma strict_eq_true (a b : val) : strict_eq a b = true <-> a = b.
Proof. unfold strict_eq. apply bool_decide_eq_true. Qed.

Lemma strict_eq_false (a b : val) : strict_eq a b = false <-> a <> b.
Proof. unfold strict_eq. apply bool_decide_eq_false. Qed.

Lemma get_prop_nullish (h : Heap) (v : val) (k k' : string) (x : val) :
  get_prop h v k = Normal x -> exists x', get_prop h v k' = Normal x'.
Proof. destruct v; cbn; try discriminate; eauto. Qed.

(** Event names: the suffix tells a change from a completion. *)
Lemma change_not_sent (p : string) : p +:+ ":change" <> p +:+ ":sent".
Proof. induction p as [|a p IH]; [discriminate | intros H; injection H; exact IH]. Qed.

(** ** Create results *)

Lemma createResult_sent_tag
    (typeFromID : val -> string) (w : World) (result : Result) (args : lit) :
  truthy (success result) = true ->
  In (Root_triggerAsync (eventPrefix (this w) +:+ ":sent") args)
     (log (_createResult typeFromID result w)) ->
  exists newId tag,
    get_prop (heap w) (data result) "id" = Normal newId /\
    args = LObj [("result", LVal (VStr tag))] /\
    (tag = CREATED <-> newId = id (this w)) /\
    (newId <> id (this w) -> tag = FOUND).
Proof.
  intros Hs. unfold state_change. js_unfold. cbn. rewrite Hs.
  repeat js_case; intros Hin; cbn in Hin;
    repeat (destruct Hin as [Hin|Hin]; try discriminate Hin);
    try contradiction;
    try (injection Hin as Hn _; now apply change_not_sent in Hn);
    injection Hin as <-;
    match goal with
    | H : get_prop _ _ "id" = Normal ?a |- _ => exists a
    end;
    eexists; (split; [reflexivity | split; [reflexivity |]]).
  all: repeat match goal with
       | H : strict_eq _ _ = true |- _ => apply strict_eq_true in H
       | H : strict_eq _ _ = false |- _ => apply strict_eq_false in H
       end.
  all: unfold CREATED, FOUND; split; [split |]; intros; congruence.
Qed.

Lemma createResult_success_returns
    (typeFromID : val -> string) (w : World) (result : Result) (newId m : val) :
  truthy (success result) = true ->
  isDestroyed (this w) = false ->
  get_prop (heap w) (data result) "id" = Normal newId ->
  get_prop (heap w) (data result) "metadata" = Normal m ->
  JSON.read (heap w) m <> None ->
  JSON.read (heap w) (metadata (this w)) <> None ->
  outcome (_createResult typeFromID result w) = Normal tt /\
  id (this (world (_createResult typeFromID result w))) = newId /\
  last (log (_createResult typeFromID result w)) =
    Some (sent (this w) (if strict_eq (id (this w)) newId then CREATED else FOUND)).
Proof.
  intros Hs Hd Hid Hm Hrm Hr0. unfold JSON.read in *.
  destruct (get_prop_nullish _ _ _ "url" _ Hid) as [u Hu].
  destruct (get_prop_nullish _ _ _ "created_at" _ Hid) as [t Ht].
  unfold sent.
  js_unfold. cbn. rewrite Hd, Hs. cbn.
  repeat (first [rewrite Hid | rewrite Hu | rewrite Ht | rewrite Hm | js_case]; cbn).
  all: try congruence.
  all: try (split; [reflexivity | split; reflexivity ]).
Qed.

Lemma createResult_remap_first
    (typeFromID : val -> string) (w : World) (result : Result) (newId : val)
    (k : nat) (args : lit) :
  truthy (success result) = true ->
  get_prop (heap w) (data result) "id" = Normal newId ->
  newId <> id (this w) ->
  log (_createResult typeFromID result w) !! k =
    Some (Root_triggerAsync (eventPrefix (this w) +:+ ":sent") args) ->
  exists i j,
    i < j < k /\
    log (_createResult typeFromID result w) !! i =
      Some (Client_updateContainerId newId (id (this w))) /\
    log (_createResult typeFromID result w) !! j =
      Some (id_change (this w) (id (this w)) newId).
Proof.
  intros Hs Hid Hne. unfold state_change, id_change. js_unfold. cbn.
  rewrite Hs.
  destruct (isDestroyed (this w)); cbn.
  - destruct k as [|k]; cbn; [discriminate | now destruct k].
  - rewrite Hid. cbn.
    assert (E : strict_eq (id (this w)) newId = false)
      by (apply strict_eq_false; congruence).
    rewrite E. cbn.
    repeat js_case.
    all: intros Hk; destruct k as [|[|[|k]]]; cbn in Hk; try discriminate Hk;
      try (injection Hk as Hn _; now apply change_not_sent in Hn);
      exists 1, 2; (split; [lia | split; reflexivity]).
Qed.

(** C1. When a create-result with a truthy [success] is processed, every
    [sent] notification that [_createResult] queues carries [Created] exactly
    when the [id] of the server's data is the entity's id before
    reconciliation, and [Found] when the id changed. On an entity that is not
    destroyed, with data whose metadata (like the entity's own) can be
    serialised, the method returns and that notification is the last thing
    it queues; in particular data carrying the local id yields [Created]. *)
Theorem C1_sent_tag_created_iff_id_unchanged
    (typeFromID : val -> string) (w : World) (result : Result) :
  truthy (success result) = true ->
  (forall args,
      In (Root_triggerAsync (eventPrefix (this w) +:+ ":sent") args)
         (log (_createResult typeFromID result w)) ->
      exists newId tag,
        get_prop (heap w) (data result) "id" = Normal newId /\
        args = LObj [("result", LVal (VStr tag))] /\
        (tag = CREATED <-> newId = id (this w)) /\
        (newId <> id (this w) -> tag = FOUND)) /\
  (forall newId m,
      isDestroyed (this w) = false ->
      get_prop (heap w) (data result) "id" = Normal newId ->
      get_prop (heap w) (data result) "metadata" = Normal m ->
      JSON.read (heap w) m <> None ->
      JSON.read (heap w) (metadata (this w)) <> None ->
      outcome (_createResult typeFromID result w) = Normal tt /\
      last (log (_createResult typeFromID result w)) =
        Some (sent (this w)
                (if strict_eq (id (this w)) newId then CREATED else FOUND))) /\
  (forall m,
      isDestroyed (this w) = false ->
      get_prop (heap w) (data result) "id" = Normal (id (this w)) ->
      get_prop (heap w) (data result) "metadata" = Normal m ->
      JSON.read (heap w) m <> None ->
      JSON.read (heap w) (metadata (this w)) <> None ->
      last (log (_createResult typeFromID result w)) =
        Some (sent (this w) CREATED)).
Proof.
  intros Hs. split; [|split].
  - intros args. now apply createResult_sent_tag.
  - intros newId m Hd Hid Hm Hrm Hr0.
    destruct (createResult_success_returns typeFromID w result newId m)
      as (Ho & _ & Hl); auto.
  - intros m Hd Hid Hm Hrm Hr0.
    destruct (createResult_success_returns typeFromID w result (id (this w)) m)
      as (_ & _ & Hl); auto.
    rewrite Hl. f_equal. f_equal.
    now rewrite (proj2 (strict_eq_true _ _) eq_refl).
Qed.

Lemma C1_witness_local_id_created :
  last (log (_createResult sample_typeFromID
               (mkResult (VBool true) (VRef 3)) sample_world)) =
  Some (sent sample_new CREATED).
Proof.
  apply (proj2 (proj2 (C1_sent_tag_created_iff_id_unchanged sample_typeFromID
                         sample_world (mkResult (VBool true) (VRef 3)) eq_refl))
           (VRef 0));
    try reflexivity; discriminate.
Defined.

(** C2. When a create-result with a truthy [success] carries an id other
    than the entity's, every [sent] notification in the calls of
    [_createResult] comes after the client's [_updateContainerId] (called
    with the entity already under its new id, and the old id) and after the
    [change] notification of the [id] property, in this order; on an entity
    that is not destroyed, with serialisable metadata, all three are there. *)
Theorem C2_remap_and_id_change_before_sent
    (typeFromID : val -> string) (w : World) (result : Result) (newId : val) :
  truthy (success result) = true ->
  get_prop (heap w) (data result) "id" = Normal newId ->
  newId <> id (this w) ->
  let calls := log (_createResult typeFromID result w) in
  let precedes (k : nat) :=
    exists i j,
      i < j < k /\
      calls !! i = Some (Client_updateContainerId newId (id (this w))) /\
      calls !! j = Some (id_change (this w) (id (this w)) newId) in
  (forall k args,
      calls !! k =
        Some (Root_triggerAsync (eventPrefix (this w) +:+ ":sent") args) ->
      precedes k) /\
  (forall m,
      isDestroyed (this w) = false ->
      get_prop (heap w) (data result) "metadata" = Normal m ->
      JSON.read (heap w) m <> None ->
      JSON.read (heap w) (metadata (this w)) <> None ->
      exists k, calls !! k = Some (sent (this w) FOUND) /\ precedes k).
Proof.
  intros Hs Hid Hne calls precedes. subst calls precedes. cbn beta.
  split.
  - intros k args. now apply createResult_remap_first.
  - intros m Hd Hm Hrm Hr0.
    destruct (createResult_success_returns typeFromID w result newId m)
      as (_ & _ & Hl); auto.
    assert (E : strict_eq (id (this w)) newId = false)
      by (apply strict_eq_false; congruence).
    rewrite E, last_lookup in Hl.
    eexists. split; [exact Hl |].
    eapply createResult_remap_first; eauto.
Qed.

Lemma C2_witness_server_id :
  exists k,
    log (_createResult sample_typeFromID
           (mkResult (VBool true) (VRef 1)) sample_world) !! k =
      Some (sent sample_new FOUND) /\
    exists i j,
      i < j < k /\
      log (_createResult sample_typeFromID
             (mkResult (VBool true) (VRef 1)) sample_world) !! i =
        Some (Client_updateContainerId (VStr "server-9") (VStr "local-1")) /\
      log (_createResult sample_typeFromID
             (mkResult (VBool true) (VRef 1)) sample_world) !! j =
        Some (id_change sample_new (VStr "local-1") (VStr "server-9")).
Proof.
  apply (proj2 (C2_remap_and_id_change_before_sent sample_typeFromID
                  sample_world (mkResult (VBool true) (VRef 1))
                  (VStr "server-9") eq_refl eq_refl ltac:(discriminate))
           (VRef 2));
    try reflexivity; discriminate.
Defined.

(** ** Failed creates *)

(** C3, as stated, fails on a destroyed entity: a failed create whose
    error is not a conflict is then neither reported by [sent-error] nor
    followed by [destroy]. *)
Lemma C3_counterexample_destroyed_entity :
  let result := mkResult (VBool false) (VRef 1) in
  let run := _createResult sample_typeFromID result (sample_error_world true) in
  truthy (success result) = false /\
  get_prop sample_error_heap (data result) "id" = Normal (VStr "internal_server_error") /\
  ~ In (sent_error sample_new (data result)) (log run) /\
  ~ In Root_destroy (log run) /\
  world run = sample_error_world true.
Proof.
  cbn. repeat split; try reflexivity; intros [H|[]]; discriminate H.
Qed.

(** C3 (amended). On an entity that is not destroyed, a create-result with
    a falsy [success] and a [data.id] other than [conflict] makes
    [_createResult] queue the client's [state-change] ended notification,
    trigger [sent-error] with the error payload as its [error], and destroy
    the entity, in this order and nothing else. *)
Theorem C3_failed_create_sent_error_then_destroy
    (typeFromID : val -> string) (w : World) (result : Result) (code : val) :
  isDestroyed (this w) = false ->
  truthy (success result) = false ->
  get_prop (heap w) (data result) "id" = Normal code ->
  code <> VStr "conflict" ->
  log (_createResult typeFromID result w) =
    [state_change typeFromID "ended" (id (this w));
     sent_error (this w) (data result);
     Root_destroy] /\
  outcome (_createResult typeFromID result w) = Normal tt /\
  isDestroyed (this (world (_createResult typeFromID result w))) = true.
Proof.
  intros Hd Hs Hid Hne. apply strict_eq_false in Hne.
  unfold sent_error. js_unfold. cbn. rewrite Hd, Hs. cbn. rewrite Hid. cbn.
  rewrite Hne. cbn. repeat split.
Qed.

Lemma C3_witness_server_error :
  log (_createResult sample_typeFromID (mkResult (VBool false) (VRef 1))
         (sample_error_world false)) =
    [state_change sample_typeFromID "ended" (VStr "local-1");
     sent_error sample_new (VRef 1);
     Root_destroy].
Proof.
  apply (C3_failed_create_sent_error_then_destroy sample_typeFromID
           (sample_error_world false) (mkResult (VBool false) (VRef 1))
           (VStr "internal_server_error"));
    try reflexivity; discriminate.
Defined.

(** ** Destroyed entities *)

(** C4, as stated, fails on a destroyed entity: processing a create-result
    still queues the [state-change] ended notification, and
    [setMetadataProperties] still hands its operations to the patch parser
    and its request to [_xhr]. *)
Lemma C4_counterexample_destroyed_still_calls :
  isDestroyed (this sample_destroyed) = true /\
  log (_createResult sample_typeFromID (mkResult (VBool true) (VRef 1))
         sample_destroyed) =
    [Client_triggerAsync "state-change"
       (LObj [("ended", LVal (VBool true));
              ("type", LVal (VStr "send_conversations"));
              ("telemetryId", LVal (VStr "send_conversations_time"));
              ("id", LVal (VStr "local-1"))])] /\
  exists body,
    log (setMetadataProperties [("title", VStr "x")] sample_destroyed) =
      [Util_layerParse [mkPatchOp "set" "metadata.title" (Some (VStr "x"))];
       Syncable_xhr (patch_request body)].
Proof. split; [reflexivity | split; [reflexivity | eexists; reflexivity]]. Qed.

(** C4 (amended). On a destroyed entity, [_createResult] queues the
    client's [state-change] ended notification and returns, leaving the
    entity and the store as they were, whatever the result; the callback of
    the [setMetadataProperties] request does nothing at all. Neither raises
    an error. *)
Theorem C4_destroyed_completions
    (typeFromID : val -> string) (w : World) (result : Result) :
  isDestroyed (this w) = true ->
  _createResult typeFromID result w =
    mkRun w [state_change typeFromID "ended" (id (this w))] (Normal tt) /\
  setMetadataProperties_callback result w = mkRun w [] (Normal tt).
Proof.
  destruct w as [c h]. cbn. intros Hd. split.
  - js_unfold. cbn. now rewrite Hd.
  - js_unfold. destruct (truthy (success result)); cbn; [reflexivity |].
    now rewrite Hd.
Qed.

Lemma C4_witness_destroyed :
  _createResult sample_typeFromID (mkResult (VBool false) VNull) sample_destroyed =
    mkRun sample_destroyed
      [state_change sample_typeFromID "ended" (VStr "local-1")] (Normal tt) /\
  setMetadataProperties_callback (mkResult (VBool false) VNull) sample_destroyed =
    mkRun sample_destroyed [] (Normal tt).
Proof.
  apply (C4_destroyed_completions sample_typeFromID sample_destroyed
           (mkResult (VBool false) VNull)).
  reflexivity.
Defined.

(** The other operations on a destroyed entity: the patch methods do not
    read the flag, and the callback of [deleteMetadataProperties], unlike
    its sibling, reloads. *)
Lemma destroyed_patch_methods_unguarded (w : World) :
  (forall props,
      log (setMetadataProperties props w) =
      log (setMetadataProperties props
             (mkWorld (set_isDestroyed (negb (isDestroyed (this w))) (this w))
                      (heap w)))) /\
  (forall paths,
      log (deleteMetadataProperties paths w) =
      log (deleteMetadataProperties paths
             (mkWorld (set_isDestroyed (negb (isDestroyed (this w))) (this w))
                      (heap w)))).
Proof.
  split; intros; js_unfold; cbn; destruct (stringify_operations _ _); reflexivity.
Qed.

Example destroyed_delete_callback_reloads :
  log (deleteMetadataProperties_callback (mkResult (VBool false) (VRef 1))
         (sample_error_world true)) = [Syncable_load].
Proof. reflexivity. Qed.

(** ** [state-change] started and ended *)

Lemma perform_id (typeFromID : val -> string) (MY_DEVICES : string)
    (c : call) (w : World) :
  id (this (world (perform typeFromID MY_DEVICES c w))) = id (this w).
Proof.
  destruct c; cbn [perform].
  - js_run; reflexivity.
  - unfold setMetadataProperties. generalize (set_operations props).
    intros ops. js_unfold. cbn.
    destruct (stringify_operations _ _); reflexivity.
  - js_run; reflexivity.
  - unfold deleteMetadataProperties. generalize (delete_operations paths).
    intros ops. js_unfold. cbn.
    destruct (stringify_operations _ _); reflexivity.
  - js_run; reflexivity.
  - js_run; reflexivity.
  - destruct paths; js_run; reflexivity.
  - reflexivity.
  - reflexivity.
  - js_unfold_toObject. js_run; reflexivity.
Qed.

Lemma perform_all_id (typeFromID : val -> string) (MY_DEVICES : string)
    (cs : list call) (w : World) :
  id (this (perform_all typeFromID MY_DEVICES cs w)) = id (this w).
Proof.
  revert w. induction cs as [|c cs IH]; intros w; [reflexivity |].
  cbn [perform_all]. rewrite IH. apply perform_id.
Qed.

Lemma createResult_ended_first
    (typeFromID : val -> string) (w : World) (result : Result) :
  exists rest,
    log (_createResult typeFromID result w) =
    state_change typeFromID "ended" (id (this w)) :: rest.
Proof. js_run; eauto. Qed.

(** C6. [send] on a new entity queues the [state-change] started
    notification under the entity's id and only then hands the create request
    (whose callback is [_createResult]) to the client; whatever other methods
    run in between, processing the create-result (success or failure,
    conflict or not, on a destroyed entity or not) queues the [state-change]
    ended notification under that same id before any other effect. *)
Theorem C6_ended_first_under_started_id
    (typeFromID : val -> string) (MY_DEVICES : string) (w : World)
    (now : Z) (message : val) (between : list call) (result : Result) :
  syncState (this w) = NEW ->
  let started := send typeFromID now message w in
  let later := perform_all typeFromID MY_DEVICES between (world started) in
  (exists request rest,
      log started =
      state_change typeFromID "started" (id (this w))
        :: Client_sendSocketRequest request :: rest) /\
  (exists rest,
      log (_createResult typeFromID result later) =
      state_change typeFromID "ended" (id (this w)) :: rest).
Proof.
  intros Hn started later. split.
  - subst started. js_unfold. cbn. rewrite Hn. cbn.
    destruct (truthy message); cbn; eauto.
  - destruct (createResult_ended_first typeFromID later result) as [rest E].
    exists rest. rewrite E. do 2 f_equal. subst later.
    rewrite perform_all_id. subst started.
    js_unfold. cbn. rewrite Hn. cbn. now destruct (truthy message).
Qed.

Lemma C6_witness_send_then_failure :
  (exists request rest,
      log (send sample_typeFromID 7 VUndefined sample_world) =
      state_change sample_typeFromID "started" (VStr "local-1")
        :: Client_sendSocketRequest request :: rest) /\
  (exists rest,
      log (_createResult sample_typeFromID (mkResult (VBool false) VNull)
             (perform_all sample_typeFromID "my_devices"
                [Call_toObject; Call_setMetadataProperties [("title", VStr "x")]]
                (world (send sample_typeFromID 7 VUndefined sample_world)))) =
      state_change sample_typeFromID "ended" (VStr "local-1") :: rest).
Proof.
  apply (C6_ended_first_under_started_id sample_typeFromID "my_devices"
           sample_world 7 VUndefined
           [Call_toObject; Call_setMetadataProperties [("title", VStr "x")]]
           (mkResult (VBool false) VNull)).
  reflexivity.
Defined.

(** ** Server pushes: delete *)

(** C7, as stated, fails for a position that is given but falsy: mode
    my-devices with [from_position] 0 tears the entity down. *)
Lemma C7_counterexample_position_zero :
  let h : Heap := [[("mode", VStr "my_devices"); ("from_position", VNum 0)]] in
  let run := _handleWebsocketDelete "my_devices" (VRef 0) (mkWorld sample_new h) in
  get_prop h (VRef 0) "mode" = Normal (VStr "my_devices") /\
  get_prop h (VRef 0) "from_position" = Normal (VNum 0) /\
  log run = [Syncable_handleWebsocketDelete] /\
  isDestroyed (this (world run)) = true.
Proof. repeat split. Qed.

(** C7 (amended). A delete push whose mode is the my-devices mode and
    whose [from_position] is truthy (a position other than 0) asks the client
    to purge the messages from that position on and leaves the entity as it
    is; every other push (another mode, or a [from_position] that is missing,
    0 or otherwise falsy) goes to the full local teardown of the base
    class. *)
Theorem C7_delete_push_purge_or_teardown
    (MY_DEVICES : string) (w : World) (data mode position : val) :
  get_prop (heap w) data "mode" = Normal mode ->
  get_prop (heap w) data "from_position" = Normal position ->
  (mode = VStr MY_DEVICES /\ truthy position = true ->
     _handleWebsocketDelete MY_DEVICES data w =
       mkRun w [Client_purgeMessagesByPosition (id (this w)) position]
         (Normal tt)) /\
  (~ (mode = VStr MY_DEVICES /\ truthy position = true) ->
     _handleWebsocketDelete MY_DEVICES data w =
       mkRun (mkWorld (set_isDestroyed true (this w)) (heap w))
         [Syncable_handleWebsocketDelete] (Normal tt)).
Proof.
  intros Hm Hp. destruct w as [c h]. cbn in *. split.
  - intros [-> Ht]. js_unfold. cbn. rewrite Hm. cbn.
    rewrite (proj2 (strict_eq_true _ _) eq_refl). cbn.
    rewrite Hp. cbn. rewrite Ht. cbn. rewrite Hp. reflexivity.
  - intros Hn. js_unfold. cbn. rewrite Hm. cbn.
    destruct (strict_eq mode (VStr MY_DEVICES)) eqn:E; cbn; [|reflexivity].
    rewrite Hp. cbn. destruct (truthy position) eqn:Ht; cbn; [|reflexivity].
    apply strict_eq_true in E. tauto.
Qed.

Lemma C7_witness_position_42 :
  _handleWebsocketDelete "my_devices" (VRef 0)
    (mkWorld sample_new
       [[("mode", VStr "my_devices"); ("from_position", VNum 42)]]) =
  mkRun
    (mkWorld sample_new
       [[("mode", VStr "my_devices"); ("from_position", VNum 42)]])
    [Client_purgeMessagesByPosition (VStr "local-1") (VNum 42)] (Normal tt).
Proof.
  apply (C7_delete_push_purge_or_teardown "my_devices"
           (mkWorld sample_new
              [[("mode", VStr "my_devices"); ("from_position", VNum 42)]])
           (VRef 0) (VStr "my_devices") (VNum 42) eq_refl eq_refl).
  split; reflexivity.
Defined.

Example delete_push_all_participants :
  log (_handleWebsocketDelete "my_devices" (VRef 0)
         (mkWorld sample_new [[("mode", VStr "all_participants")]])) =
  [Syncable_handleWebsocketDelete].
Proof. reflexivity. Qed.

(** ** Server pushes: patch *)

(** C8, as stated, fails three ways: inside the patch parser nothing is
    notified although the first segment is [metadata] and the values differ;
    a first path that merely begins with [metadata] is notified; and an
    empty path list is a TypeError even when the values are equal. *)
Lemma C8_counterexample_flag_prefix_empty :
  let inParser := mkWorld (set__inLayerParser true sample_new) sample_heap in
  (spec_first_segment "metadata.a" = "metadata" /\
   JSON.stringify sample_heap (VStr "x") <> JSON.stringify sample_heap (VStr "y") /\
   log (_handlePatchEvent (VStr "x") (VStr "y") ["metadata.a"] inParser) = []) /\
  (spec_first_segment "metadatax.a" <> "metadata" /\
   log (_handlePatchEvent (VStr "x") (VStr "y") ["metadatax.a"] sample_world) =
     [metadata_change sample_new (VStr "x") (VStr "y") ["metadatax.a"]]) /\
  (JSON.stringify sample_heap (VStr "x") = JSON.stringify sample_heap (VStr "x") /\
   outcome (_handlePatchEvent (VStr "x") (VStr "x") [] sample_world) =
     Throw TypeError).
Proof. cbn. repeat split; discriminate. Qed.

(** C8 (amended). For a patch push with at least one path and values that
    serialise, [_handlePatchEvent] queues the [change] notification of
    [metadata], carrying the new value, the old value and the path list as
    given, exactly when the first path begins with [metadata], the entity is
    not inside the patch parser ([_inLayerParser] unset) and the serialised
    values differ; in every other case, equal serialised values among them,
    it does nothing and raises no error. *)
Theorem C8_patch_push_metadata_change
    (w : World) (newValue oldValue : val) (path : string) (paths : list string)
    (n o : option string) :
  JSON.stringify (heap w) newValue = Normal n ->
  JSON.stringify (heap w) oldValue = Normal o ->
  ((exists rest, path = "metadata" +:+ rest) /\
   _inLayerParser (this w) = false /\ n <> o ->
   _handlePatchEvent newValue oldValue (path :: paths) w =
     mkRun (mkWorld (set__toObject VNull (this w)) (heap w))
       [metadata_change (this w) newValue oldValue (path :: paths)]
       (Normal tt)) /\
  (~ ((exists rest, path = "metadata" +:+ rest) /\
      _inLayerParser (this w) = false /\ n <> o) ->
   _handlePatchEvent newValue oldValue (path :: paths) w =
     mkRun w [] (Normal tt)).
Proof.
  intros Hn Ho. destruct w as [c h]. cbn [this heap] in *.
  unfold metadata_change, _handlePatchEvent, when.
  rewrite indexOf_zero. split.
  - intros (Hp & Hf & Hne). apply prefix_append in Hp. rewrite Hp.
    unfold __updateMetadata, JSON_stringify, _triggerAsync, _clearObject,
      when, bind, gets, emit, modify, lift, ret.
    cbn -[JSON.stringify]. rewrite Hf. cbn -[JSON.stringify].
    rewrite Hn, Ho. cbn.
    now rewrite (bool_decide_eq_false_2 _ Hne).
  - intros Hnot. destruct (String.prefix "metadata" path) eqn:Hp; [|reflexivity].
    apply prefix_append in Hp.
    unfold __updateMetadata, JSON_stringify, _triggerAsync, _clearObject,
      when, bind, gets, emit, modify, lift, ret.
    cbn -[JSON.stringify]. destruct (_inLayerParser c) eqn:Hf; [reflexivity |].
    cbn -[JSON.stringify]. rewrite Hn, Ho. cbn. case_bool_decide; [reflexivity |]. tauto.
Qed.

Lemma C8_witness_metadata_path :
  _handlePatchEvent (VStr "x") (VStr "y") ["metadata.a"] sample_world =
  mkRun sample_world
    [metadata_change sample_new (VStr "x") (VStr "y") ["metadata.a"]]
    (Normal tt).
Proof.
  apply (C8_patch_push_metadata_change sample_world (VStr "x") (VStr "y")
           "metadata.a" [] _ _ eq_refl eq_refl).
  split; [now exists ".a" | split; [reflexivity | discriminate]].
Defined.

(** ** [send] and [createdAt] *)

(** C9, as stated, fails: [send] on a new entity overwrites a [createdAt]
    that is already set. *)
Lemma C9_counterexample_createdAt_overwritten :
  syncState (this sample_world) = NEW /\
  createdAt (this sample_world) = Some (Date_now 5) /\
  createdAt (this (world (send sample_typeFromID 7 VUndefined sample_world))) =
    Some (Date_now 7) /\
  createdAt (this (world (send sample_typeFromID 7 VUndefined sample_world))) <>
    createdAt (this sample_world).
Proof. repeat split. discriminate. Qed.

(** C9 (amended). [send] on an entity in the NEW state sets [createdAt] to
    the current time, whatever it was before, moves the entity to SYNCING,
    queues the started notification and hands out the create request; on an
    entity in any other state it issues no create request, queues no
    [state-change] notification and leaves the entity (its [createdAt]
    included) as it was. In both cases [_setupMessage] is called last when a
    message is given. *)
Theorem C9_send_stamps_createdAt_when_new
    (typeFromID : val -> string) (w : World) (now : Z) (message : val) :
  let setup := if truthy message then [This_setupMessage message] else [] in
  (syncState (this w) = NEW ->
   createdAt (this (world (send typeFromID now message w))) =
     Some (Date_now now) /\
   syncState (this (world (send typeFromID now message w))) = SYNCING /\
   exists request,
     log (send typeFromID now message w) =
       state_change typeFromID "started" (id (this w))
         :: Client_sendSocketRequest request :: setup) /\
  (syncState (this w) <> NEW ->
   send typeFromID now message w = mkRun w setup (Normal tt)).
Proof.
  destruct w as [c h]. cbn. split; intros Hs; js_unfold; cbn.
  - rewrite Hs. cbn. destruct (truthy message); cbn; eauto.
  - rewrite (bool_decide_eq_false_2 _ Hs). cbn. now destruct (truthy message).
Qed.

Lemma C9_witness_new_and_synced :
  createdAt (this (world (send sample_typeFromID 7 VUndefined sample_world))) =
    Some (Date_now 7) /\
  send sample_typeFromID 7 (VStr "hello")
    (mkWorld (set_syncState SYNCED sample_new) sample_heap) =
    mkRun (mkWorld (set_syncState SYNCED sample_new) sample_heap)
      [This_setupMessage (VStr "hello")] (Normal tt).
Proof.
  split.
  - apply (proj1 (C9_send_stamps_createdAt_when_new sample_typeFromID
                    sample_world 7 VUndefined)).
    reflexivity.
  - apply (proj2 (C9_send_stamps_createdAt_when_new sample_typeFromID
                    (mkWorld (set_syncState SYNCED sample_new) sample_heap)
                    7 (VStr "hello"))).
    discriminate.
Defined.

(** ** The store and JSON *)

Lemma to_json_ref (fuel : nat) (h : Heap) (l : loc) :
  JSON.to_json (S fuel) h (VRef l) =
  match h !! l with
  | None => None
  | Some o =>
      match to_json_props fuel h o with
      | None => None
      | Some fs => Some (Some (JSON.JObj fs))
      end
  end.
Proof. reflexivity. Qed.

Lemma alloc_object (fs : list (string * JSON.json)) (h : Heap) :
  JSON.alloc (JSON.JObj fs) h =
  let '(h1, o) := alloc_members fs h in (h1 ++ [o], VRef (length h1)).
Proof. reflexivity. Qed.

Lemma included_app (h ext : Heap) : included h (h ++ ext).
Proof. intros l o H. now apply lookup_app_l_Some. Qed.

Lemma included_trans (h1 h2 h3 : Heap) :
  included h1 h2 -> included h2 h3 -> included h1 h3.
Proof. unfold included. eauto. Qed.

(** A successful read only depends on the objects it went through. *)
Lemma to_json_included (fuel : nat) (h h2 : Heap) :
  included h h2 ->
  forall v r, JSON.to_json fuel h v = Some r -> JSON.to_json fuel h2 v = Some r.
Proof.
  intros Hinc. induction fuel as [|fuel IH]; intros v r;
    destruct v; try (cbn; congruence).
  rewrite !to_json_ref.
  destruct (h !! l) as [o|] eqn:Hl; [|discriminate].
  rewrite (Hinc _ _ Hl).
  assert (Hprops : forall fs, to_json_props fuel h o = Some fs ->
                              to_json_props fuel h2 o = Some fs).
  { clear Hl. induction o as [|[k x] o IHo]; intros fs; [trivial |].
    cbn. destruct (JSON.to_json fuel h x) as [[j|]|] eqn:Hx; [| |discriminate];
      rewrite (IH _ _ Hx); [|exact (IHo fs)].
    destruct (to_json_props fuel h o) as [r'|]; [|discriminate].
    now rewrite (IHo r' eq_refl). }
  destruct (to_json_props fuel h o) as [fs|]; [|discriminate].
  now rewrite (Hprops fs eq_refl).
Qed.

(** More fuel reads the same. *)
Lemma to_json_fuel (h : Heap) (fuel fuel' : nat) :
  fuel <= fuel' ->
  forall v r, JSON.to_json fuel h v = Some r -> JSON.to_json fuel' h v = Some r.
Proof.
  revert fuel'. induction fuel as [|fuel IH]; intros fuel' Hle v r;
    destruct v; try (destruct fuel'; cbn; congruence).
  destruct fuel' as [|fuel']; [lia |].
  rewrite !to_json_ref.
  destruct (h !! l) as [o|]; [|discriminate].
  assert (Hprops : forall fs, to_json_props fuel h o = Some fs ->
                              to_json_props fuel' h o = Some fs).
  { induction o as [|[k x] o IHo]; intros fs; [trivial |].
    cbn. destruct (JSON.to_json fuel h x) as [[j|]|] eqn:Hx; [| |discriminate];
      rewrite (IH fuel' ltac:(lia) _ _ Hx); [|exact (IHo fs)].
    destruct (to_json_props fuel h o) as [r'|]; [|discriminate].
    now rewrite (IHo r' eq_refl). }
  destruct (to_json_props fuel h o) as [fs|]; [|discriminate].
  now rewrite (Hprops fs eq_refl).
Qed.

Lemma read_included (h h2 : Heap) (v : val) (r : option JSON.json) :
  included h h2 -> length h <= length h2 ->
  JSON.read h v = Some r -> JSON.read h2 v = Some r.
Proof.
  unfold JSON.read. intros Hinc Hlen H.
  eapply to_json_fuel; [exact Hlen |]. eapply to_json_included; eauto.
Qed.

Lemma agrees_from_app (n : nat) (H h ext : Heap) :
  agrees_from n H (h ++ ext) -> agrees_from n H h.
Proof.
  intros Ha l Hn Hl. rewrite Ha; [|exact Hn|rewrite length_app; lia].
  now apply lookup_app_l.
Qed.

Lemma agrees_from_le (n n' : nat) (H h : Heap) :
  n <= n' -> agrees_from n H h -> agrees_from n' H h.
Proof. intros Hle Ha l Hn Hl. apply Ha; lia. Qed.

Lemma alloc_members_spec (fs : list (string * JSON.json)) :
  Forall (fun kx => alloc_spec (snd kx)) fs ->
  forall h,
    exists ext,
      fst (alloc_members fs h) = h ++ ext /\
      length ext = objects_members fs /\
      forall H fuel,
        agrees_from (length h) H (fst (alloc_members fs h)) ->
        objects_members fs <= fuel ->
        to_json_props fuel H (snd (alloc_members fs h)) = Some fs.
Proof.
  induction 1 as [|[k x] fs Hx _ IH]; intros h.
  - exists []. cbn. rewrite app_nil_r. auto.
  - cbn [alloc_members snd] in *.
    destruct (Hx h) as (e1 & E1 & L1 & _ & R1).
    destruct (JSON.alloc x h) as [h' v]. cbn [fst snd] in *. subst h'.
    destruct (IH (h ++ e1)) as (e2 & E2 & L2 & R2).
    destruct (alloc_members fs (h ++ e1)) as [h'' o]. cbn [fst snd] in *.
    subst h''. exists (e1 ++ e2). rewrite app_assoc, length_app.
    split; [reflexivity | split; [cbn; lia |]].
    intros H fuel Ha Hf. cbn in Hf. cbn [to_json_props].
    rewrite R1; [|eapply agrees_from_app; exact Ha | lia].
    fold (to_json_props fuel H).
    rewrite R2; [reflexivity | | lia].
    eapply agrees_from_le; [|exact Ha]. rewrite length_app. lia.
Qed.

Lemma alloc_correct (j : JSON.json) : alloc_spec j.
Proof.
  induction j as [| | | |fs IH] using json_nested_ind; intros h;
    try (exists []; cbn; rewrite app_nil_r;
         repeat split; try discriminate; intros; now destruct fuel).
  rewrite alloc_object.
  destruct (alloc_members_spec fs IH h) as (e & E & L & R).
  destruct (alloc_members fs h) as [h1 o]. cbn [fst snd] in *. subst h1.
  exists (e ++ [o]). rewrite app_assoc, !length_app. cbn [length objects].
  fold (objects_members fs).
  split; [reflexivity | split; [lia | split]].
  - intros l [= <-]. lia.
  - intros H fuel Ha Hf. destruct fuel as [|fuel]; [lia |].
    rewrite to_json_ref, Ha; [| lia | rewrite !length_app; cbn; lia].
    rewrite <- length_app, lookup_app_r, Nat.sub_diag by lia. cbn [lookup list_lookup].
    rewrite R; [reflexivity | | lia].
    eapply agrees_from_app. exact Ha.
Qed.

(** ** [toObject] *)

Lemma field_set_field (k : string) (v : val) (o : obj) :
  field k (set_field k v o) = v.
Proof.
  induction o as [|[k' v'] o IH]; cbn.
  - now rewrite bool_decide_eq_true_2.
  - case_bool_decide as E; cbn.
    + now rewrite bool_decide_eq_true_2.
    + now rewrite (bool_decide_eq_false_2 _ E).
Qed.

(** With a cached object, [toObject] returns it and does nothing. *)
Lemma toObject_cached (w : World) :
  truthy (_toObject (this w)) = true ->
  toObject w = mkRun w [] (Normal (_toObject (this w))).
Proof. intros H. toObject_unfold. cbn. rewrite H. now destruct w. Qed.

(** Whatever [toObject] returns is what it has cached. *)
Lemma toObject_result (w : World) (v : val) :
  outcome (toObject w) = Normal v ->
  _toObject (this (world (toObject w))) = v /\ truthy v = true.
Proof.
  toObject_unfold. cbn -[Util.clone].
  destruct (truthy (_toObject (this w))) eqn:Hc; cbn -[Util.clone].
  - intros [= <-]. auto.
  - destruct (Util.clone _ _) as [[h' v']|e]; cbn; [|discriminate].
    intros [= <-]. auto.
Qed.

(** Without one, it builds a new object whose [metadata] is a copy. *)
Lemma toObject_fresh (w : World) (j : JSON.json) :
  truthy (_toObject (this w)) = false ->
  JSON.read (heap w) (metadata (this w)) = Some (Some j) ->
  let r := toObject w in
  let n := length (heap w) in
  exists copy,
    outcome r = Normal (VRef n) /\
    log r = [] /\
    metadata (this (world r)) = metadata (this w) /\
    included (heap w) (heap (world r)) /\
    (exists o, heap (world r) !! n = Some o /\ field "metadata" o = copy) /\
    (forall l, copy = VRef l -> n < l) /\
    JSON.read (heap (world r)) copy = Some (Some j) /\
    (forall k o', n <= k ->
       JSON.read (<[k := o']> (heap (world r))) (metadata (this w)) =
         Some (Some j)) /\
    (forall k o', k < n ->
       JSON.read (<[k := o']> (heap (world r))) copy = Some (Some j)).
Proof.
  intros Hc Hr r n. subst r n.
  destruct w as [c h]. cbn [this heap] in *.
  toObject_unfold. cbn -[Util.clone]. rewrite Hc. cbn -[Util.clone].
  unfold Util.clone.
  match goal with |- context [JSON.read (h ++ [?o]) _] => set (o0 := o) end.
  rewrite (read_included h (h ++ [o0]) _ _ (included_app _ _)
             ltac:(rewrite length_app; lia) Hr).
  destruct (alloc_correct j (h ++ [o0])) as (ext & E & L & Hl & R).
  destruct (JSON.alloc j (h ++ [o0])) as [h2 copy]. cbn [fst snd] in *.
  subst h2. rewrite length_app in Hl, R. cbn [length] in Hl, R. cbn.
  set (h3 := alter (set_field "metadata" copy) (length h) ((h ++ [o0]) ++ ext)).
  assert (Hlen : length h3 = length h + 1 + length ext)
    by (subst h3; rewrite length_alter, !length_app; reflexivity).
  assert (Hold : forall l, l <> length h -> h3 !! l = ((h ++ [o0]) ++ ext) !! l)
    by (intros l Hne; subst h3; now apply list_lookup_alter_ne).
  assert (Hinc : included h h3).
  { intros l o Hlo. pose proof (lookup_lt_Some _ _ _ Hlo).
    rewrite Hold by lia. now rewrite <- app_assoc; apply lookup_app_l_Some. }
  exists copy. repeat split; try assumption.
  - exists (set_field "metadata" copy o0). split.
    + subst h3. rewrite list_lookup_alter, <- app_assoc.
      rewrite lookup_app_r, Nat.sub_diag by lia.
      destruct (decide _); [reflexivity | contradiction].
    + apply field_set_field.
  - intros l Hcopy. specialize (Hl l Hcopy). lia.
  - unfold JSON.read. apply R; [|lia].
    intros l Hl1 Hl2. apply Hold. lia.
  - intros k o' Hk. eapply read_included; [| |exact Hr].
    + intros l o Hlo. pose proof (lookup_lt_Some _ _ _ Hlo).
      rewrite list_lookup_insert_ne by lia. now apply Hinc.
    + rewrite length_insert. lia.
  - intros k o' Hk. unfold JSON.read. rewrite length_insert. apply R; [|lia].
    intros l Hl1 Hl2.
    rewrite list_lookup_insert_ne by lia. apply Hold. lia.
Qed.

(** C10. A call of [toObject] that follows another, with nothing in
    between, returns the very object the first returned and changes
    nothing. [trigger] and [_triggerAsync] drop the cached object; the next
    [toObject] then returns an object at a location the store did not have
    before, whose [metadata] reads as the same JSON tree as the entity's
    metadata and is built of new objects only: overwriting any object made
    by the call leaves what the entity's metadata reads unchanged, and
    overwriting any older object (the live metadata among them) leaves the
    copy unchanged. *)
Theorem C10_toObject_cached_until_event :
  (forall (w : World) (v : val),
      outcome (toObject w) = Normal v ->
      toObject (world (toObject w)) =
        mkRun (world (toObject w)) [] (Normal v)) /\
  (forall (w : World) (evtName : string) (args : lit),
      _toObject (this (world (trigger evtName args w))) = VNull /\
      _toObject (this (world (_triggerAsync evtName args w))) = VNull) /\
  (forall (w w' : World) (evtName : string) (args : lit) (j : JSON.json),
      w' = world (trigger evtName args w) \/
      w' = world (_triggerAsync evtName args w) ->
      JSON.read (heap w) (metadata (this w)) = Some (Some j) ->
      let r := toObject w' in
      let n := length (heap w) in
      exists copy,
        outcome r = Normal (VRef n) /\
        heap w !! n = None /\
        metadata (this (world r)) = metadata (this w) /\
        included (heap w) (heap (world r)) /\
        (exists o, heap (world r) !! n = Some o /\ field "metadata" o = copy) /\
        (forall l, copy = VRef l -> n < l) /\
        JSON.read (heap (world r)) copy = Some (Some j) /\
        (forall k o', n <= k ->
           JSON.read (<[k := o']> (heap (world r))) (metadata (this w)) =
             Some (Some j)) /\
        (forall k o', k < n ->
           JSON.read (<[k := o']> (heap (world r))) copy = Some (Some j))).
Proof.
  split; [|split].
  - intros w v Hv. destruct (toObject_result w v Hv) as [Hc Ht].
    rewrite toObject_cached; rewrite Hc; [reflexivity | exact Ht].
  - intros w evtName args. split; reflexivity.
  - intros w w' evtName args j Hw Hr r n. subst r n.
    assert (Hw' : w' = mkWorld (set__toObject VNull (this w)) (heap w))
      by (destruct Hw as [-> | ->]; reflexivity).
    subst w'.
    destruct (toObject_fresh (mkWorld (set__toObject VNull (this w)) (heap w))
                j eq_refl Hr)
      as (copy & Ho & _ & H1 & H2 & H3 & H4 & H5 & H6 & H7).
    exists copy. repeat split; try assumption.
    apply lookup_ge_None. cbn. lia.
Qed.

Lemma C10_witness_after_change_event :
  outcome (toObject (world (_triggerAsync "conversations:change" (LObj [])
                              (world (toObject sample_world))))) =
  Normal (VRef 6).
Proof.
  destruct (proj2 (proj2 C10_toObject_cached_until_event)
              (world (toObject sample_world)) _
              "conversations:change" (LObj [])
              (JSON.JObj [("a", JSON.JStr "1")])
              (or_intror eq_refl) eq_refl)
    as (copy & H & _).
  exact H.
Defined.

(** * Further properties *)

(** ** Create results: conflict and missing payload *)



(** X2. A failure that comes without a payload ([data] undefined or null)
    is a TypeError at the read of [data.id]: [_createResult] has then queued
    the ended notification only and the entity is neither notified of the
    error nor destroyed; the two patch callbacks and the delete push raise
    before any call. The callback of [setMetadataProperties] reads the
    payload on a live entity only. *)
Theorem missing_payload_is_a_TypeError
    (typeFromID : val -> string) (MY_DEVICES : string) (w : World)
    (result : Result) :
  data result = VUndefined \/ data result = VNull ->
  (truthy (success result) = false ->
   isDestroyed (this w) = false ->
   _createResult typeFromID result w =
     mkRun w [state_change typeFromID "ended" (id (this w))] (Throw TypeError) /\
   setMetadataProperties_callback result w = mkRun w [] (Throw TypeError)) /\
  (truthy (success result) = false ->
   deleteMetadataProperties_callback result w = mkRun w [] (Throw TypeError)) /\
  (truthy (success result) = false ->
   isDestroyed (this w) = true ->
   setMetadataProperties_callback result w = mkRun w [] (Normal tt)) /\
  _handleWebsocketDelete MY_DEVICES (data result) w =
    mkRun w [] (Throw TypeError).
Proof.
  destruct w as [c h]. cbn. intros Hdata.
  assert (Hid : forall k, get_prop h (data result) k = Throw TypeError)
    by (intros k; destruct Hdata as [-> | ->]; reflexivity).
  split; [intros Hs Hd; split | split; [intros Hs | split; [intros Hs Hd |]]].
  - js_unfold. cbn. rewrite Hd, Hs. cbn. now rewrite Hid.
  - js_unfold. cbn. rewrite Hs. cbn. rewrite Hd. cbn. now rewrite Hid.
  - js_unfold. cbn. rewrite Hs. cbn. now rewrite Hid.
  - js_unfold. cbn. rewrite Hs. cbn. now rewrite Hd.
  - js_unfold. cbn. now rewrite Hid.
Qed.

Lemma missing_payload_is_a_TypeError_witness :
  _createResult sample_typeFromID (mkResult (VBool false) VUndefined) sample_world =
  mkRun sample_world
    [state_change sample_typeFromID "ended" (VStr "local-1")] (Throw TypeError).
Proof.
  apply (proj1 (missing_payload_is_a_TypeError sample_typeFromID "my_devices"
                  sample_world (mkResult (VBool false) VUndefined)
                  (or_introl eq_refl)));
    reflexivity.
Defined.

(** ** The callbacks of the patch requests *)

(** X3. The callback of the [setMetadataProperties] request reloads the
    entity exactly when the request failed, the entity is not destroyed and
    the failure is not [authentication_required]; it does nothing, and does
    not look at the payload, after a success or on a destroyed entity. *)
Theorem set_callback_reloads_iff
    (w : World) (result : Result) :
  (truthy (success result) = true \/ isDestroyed (this w) = true ->
   setMetadataProperties_callback result w = mkRun w [] (Normal tt)) /\
  (forall code,
      truthy (success result) = false ->
      isDestroyed (this w) = false ->
      get_prop (heap w) (data result) "id" = Normal code ->
      setMetadataProperties_callback result w =
        mkRun w (if bool_decide (code = authentication_required)
                 then [] else [Syncable_load])
          (Normal tt)).
Proof.
  destruct w as [c h]. cbn. split.
  - intros [Hs | Hd]; js_unfold; cbn.
    + now rewrite Hs.
    + destruct (truthy (success result)); cbn; [reflexivity |].
      now rewrite Hd.
  - intros code Hs Hd Hid. js_unfold. cbn. rewrite Hs. cbn. rewrite Hd. cbn.
    rewrite Hid. cbn. unfold strict_eq, authentication_required.
    now case_bool_decide.
Qed.

Lemma set_callback_reloads_iff_witness :
  setMetadataProperties_callback (mkResult (VBool false) (VRef 1))
    (sample_error_world false) =
  mkRun (sample_error_world false) [Syncable_load] (Normal tt).
Proof.
  apply (proj2 (set_callback_reloads_iff (sample_error_world false)
                  (mkResult (VBool false) (VRef 1)))
           (VStr "internal_server_error"));
    reflexivity.
Defined.

(** X4. The callback of the [deleteMetadataProperties] request does on
    every entity that is not destroyed what the callback of
    [setMetadataProperties] does; on a destroyed entity it still reloads
    after a failure other than [authentication_required], where its sibling
    does nothing. *)
Theorem delete_callback_ignores_destroyed
    (w : World) (result : Result) :
  (isDestroyed (this w) = false ->
   deleteMetadataProperties_callback result w =
   setMetadataProperties_callback result w) /\
  (forall code,
      truthy (success result) = false ->
      get_prop (heap w) (data result) "id" = Normal code ->
      code <> authentication_required ->
      deleteMetadataProperties_callback result w =
        mkRun w [Syncable_load] (Normal tt)) /\
  (truthy (success result) = true ->
   deleteMetadataProperties_callback result w = mkRun w [] (Normal tt)).
Proof.
  destruct w as [c h]. cbn. split; [|split].
  - intros Hd. js_unfold. cbn.
    destruct (truthy (success result)); cbn; [reflexivity |].
    rewrite Hd. cbn.
    destruct (get_prop h (data result) "id"); cbn; [|reflexivity].
    now destruct (strict_eq _ _).
  - intros code Hs Hid Hne. js_unfold. cbn. rewrite Hs. cbn. rewrite Hid. cbn.
    unfold strict_eq. now rewrite (bool_decide_eq_false_2 _ Hne).
  - intros Hs. js_unfold. cbn. now rewrite Hs.
Qed.

Lemma delete_callback_ignores_destroyed_witness :
  deleteMetadataProperties_callback (mkResult (VBool false) (VRef 1))
    (sample_error_world true) =
  mkRun (sample_error_world true) [Syncable_load] (Normal tt).
Proof.
  apply (proj1 (proj2 (delete_callback_ignores_destroyed
                         (sample_error_world true)
                         (mkResult (VBool false) (VRef 1))))
           (VStr "internal_server_error"));
    try reflexivity; discriminate.
Defined.

(** ** The patch requests *)










(** X7. With nothing to change the request is still made: properties
    whose only key (if any) is the empty string, and an empty list of paths,
    give an empty list of operations to the parser and a PATCH whose body is
    the empty array. *)
Theorem empty_patch_is_still_requested (w : World) :
  (forall props : obj,
      Forall (fun name => name = EmptyString) (map fst props) ->
      setMetadataProperties props w =
        mkRun (after_patch w)
          [Util_layerParse []; Syncable_xhr (patch_request "[]")]
          (Normal tt)) /\
  deleteMetadataProperties [] w =
    mkRun (after_patch w)
      [Util_layerParse []; Syncable_xhr (patch_request "[]")]
      (Normal tt).
Proof.
  split; [|reflexivity].
  intros props Hall.
  assert (E : set_operations props = []).
  { unfold set_operations. induction Hall as [|name keys -> _ IH]; [reflexivity |].
    cbn. exact IH. }
  unfold setMetadataProperties. rewrite E. reflexivity.
Qed.

Lemma empty_patch_is_still_requested_witness :
  setMetadataProperties [(EmptyString, VStr "x")] sample_world =
  mkRun (after_patch sample_world)
    [Util_layerParse []; Syncable_xhr (patch_request "[]")]
    (Normal tt).
Proof.
  apply (proj1 (empty_patch_is_still_requested sample_world)
           [(EmptyString, VStr "x")]).
  repeat constructor.
Defined.

(** ** Reconciliation *)

(** X8. A create-result whose data carries the id the entity already has
    never touches the registry: among the calls of [_createResult] there is
    no [_updateContainerId] and no change notification of [id], whatever
    else the result holds. *)
Theorem same_id_leaves_registry_alone
    (typeFromID : val -> string) (w : World) (result : Result) :
  get_prop (heap w) (data result) "id" = Normal (id (this w)) ->
  existsb is_identity_change (log (_createResult typeFromID result w)) = false.
Proof.
  intros Hid. js_unfold. cbn.
  destruct (isDestroyed (this w)); cbn; [reflexivity |].
  destruct (truthy (success result)); cbn; rewrite Hid; cbn.
  - rewrite (proj2 (strict_eq_true _ _) eq_refl). cbn.
    repeat js_case; reflexivity.
  - repeat js_case; reflexivity.
Qed.

Lemma same_id_leaves_registry_alone_witness :
  existsb is_identity_change
    (log (_createResult sample_typeFromID (mkResult (VBool true) (VRef 3))
            sample_world)) = false.
Proof.
  apply (same_id_leaves_registry_alone sample_typeFromID sample_world
           (mkResult (VBool true) (VRef 3))).
  reflexivity.
Defined.

(** X9. After a successful create-result on an entity that is not
    destroyed, the entity is SYNCED and has the [id], the [url] and the
    [created_at] of the server's description, and its metadata is the
    description's [metadata] itself, the same object and no copy; the store
    is as it was. *)
Theorem success_takes_over_description
    (typeFromID : val -> string) (w : World) (result : Result)
    (l : loc) (o : obj) :
  isDestroyed (this w) = false ->
  truthy (success result) = true ->
  data result = VRef l ->
  heap w !! l = Some o ->
  JSON.read (heap w) (field "metadata" o) <> None ->
  JSON.read (heap w) (metadata (this w)) <> None ->
  let after := world (_createResult typeFromID result w) in
  outcome (_createResult typeFromID result w) = Normal tt /\
  id (this after) = field "id" o /\
  url (this after) = field "url" o /\
  createdAt (this after) = Some (Date_of (field "created_at" o)) /\
  metadata (this after) = field "metadata" o /\
  syncState (this after) = SYNCED /\
  isDestroyed (this after) = false /\
  heap after = heap w.
Proof.
  intros Hd Hs Hdata Hl Hrm Hr0. unfold JSON.read in *.
  assert (Hget : forall k, get_prop (heap w) (data result) k = Normal (field k o))
    by (intros k; rewrite Hdata; cbn; now rewrite Hl).
  js_unfold. cbn. rewrite Hd, Hs. cbn.
  repeat (first [rewrite Hget | js_case]; cbn).
  all: try congruence.
  all: repeat split; try reflexivity.
  all: repeat match goal with
       | H : strict_eq _ _ = true |- _ => apply strict_eq_true in H
       end; congruence.
Qed.

Lemma success_takes_over_description_witness :
  metadata (this (world (_createResult sample_typeFromID
                           (mkResult (VBool true) (VRef 1)) sample_world))) =
  VRef 2.
Proof.
  refine (proj1 (proj2 (proj2 (proj2 (proj2
            (success_takes_over_description sample_typeFromID sample_world
               (mkResult (VBool true) (VRef 1)) 1 _
               eq_refl eq_refl eq_refl eq_refl _ _)))))); discriminate.
Defined.

Lemma populate_fields (w : World) (container i u t m : val) :
  get_prop (heap w) container "id" = Normal i ->
  get_prop (heap w) container "url" = Normal u ->
  get_prop (heap w) container "created_at" = Normal t ->
  get_prop (heap w) container "metadata" = Normal m ->
  let r := _populateFromServer container w in
  heap (world r) = heap w /\
  id (this (world r)) = i /\
  url (this (world r)) = u /\
  createdAt (this (world r)) = Some (Date_of t) /\
  syncState (this (world r)) = SYNCED /\
  (outcome r = Normal tt -> metadata (this (world r)) = m).
Proof.
  intros Hid Hu Ht Hm. js_unfold. cbn.
  repeat (first [rewrite Hid | rewrite Hu | rewrite Ht | rewrite Hm | js_case];
          cbn).
  all: repeat split; try reflexivity; try discriminate.
  all: intros _;
    repeat match goal with
    | H : strict_eq _ _ = true |- _ => apply strict_eq_true in H
    end; congruence.
Qed.

(** A description that says what the entity already holds changes
    nothing. *)
Lemma populate_fixed (w : World) (container t : val) :
  syncState (this w) = SYNCED ->
  get_prop (heap w) container "id" = Normal (id (this w)) ->
  get_prop (heap w) container "url" = Normal (url (this w)) ->
  get_prop (heap w) container "created_at" = Normal t ->
  createdAt (this w) = Some (Date_of t) ->
  get_prop (heap w) container "metadata" = Normal (metadata (this w)) ->
  _populateFromServer container w = mkRun w [] (Normal tt).
Proof.
  destruct w as [c h]. destruct c. cbn. intros -> Hid Hu Ht -> Hm.
  js_unfold. cbn. rewrite Hid. cbn.
  rewrite (proj2 (strict_eq_true _ _) eq_refl). cbn.
  rewrite Hu. cbn. rewrite Ht. cbn. rewrite Hm. cbn.
  rewrite (proj2 (strict_eq_true _ _) eq_refl). reflexivity.
Qed.

(** X10. Populating twice from the same description is the same as
    populating once: when [_populateFromServer] has returned, a second call
    with the same description makes no call at all (no re-registration, no
    notification) and leaves the entity and the store as they are. *)
Theorem populate_twice_is_populate_once (w : World) (container : val) :
  outcome (_populateFromServer container w) = Normal tt ->
  _populateFromServer container (world (_populateFromServer container w)) =
    mkRun (world (_populateFromServer container w)) [] (Normal tt).
Proof.
  intros Hret.
  destruct (get_prop (heap w) container "id") as [i|e] eqn:Hid.
  - destruct (get_prop_nullish _ _ _ "url" _ Hid) as [u Hu].
    destruct (get_prop_nullish _ _ _ "created_at" _ Hid) as [t Ht].
    destruct (get_prop_nullish _ _ _ "metadata" _ Hid) as [m Hm].
    destruct (populate_fields w container i u t m Hid Hu Ht Hm)
      as (Hh & Fi & Fu & Ft & Fs & Fm).
    specialize (Fm Hret).
    apply (populate_fixed _ container t); rewrite ?Hh; congruence.
  - revert Hret. js_unfold. cbn. rewrite Hid. discriminate.
Qed.

Lemma populate_twice_is_populate_once_witness :
  _populateFromServer (VRef 1) (world (_populateFromServer (VRef 1) sample_world)) =
  mkRun (world (_populateFromServer (VRef 1) sample_world)) [] (Normal tt).
Proof.
  apply (populate_twice_is_populate_once sample_world (VRef 1)).
  reflexivity.
Defined.

(** ** Metadata changes and the cached object *)

(** X11. A change of metadata is only seen through its JSON text: when the
    new and the old value are one and the same value (an object edited in
    place among them), [__updateMetadata] and [_handlePatchEvent] never
    notify and leave the entity as it is, whatever the paths. *)
Theorem same_value_is_never_a_change
    (w : World) (v : val) (paths : option (list string)) :
  log (__updateMetadata v v paths w) = [] /\
  world (__updateMetadata v v paths w) = w /\
  (forall ps, log (_handlePatchEvent v v ps w) = [] /\
              world (_handlePatchEvent v v ps w) = w).
Proof.
  assert (H : log (__updateMetadata v v paths w) = [] /\
              world (__updateMetadata v v paths w) = w /\
              forall ps', log (__updateMetadata v v ps' w) = [] /\
                          world (__updateMetadata v v ps' w) = w).
  { destruct w as [c h]. js_unfold. cbn.
    destruct (_inLayerParser c); cbn; [repeat split |].
    destruct (JSON.to_json (length h) h v) as [[j|]|]; cbn;
      rewrite ?bool_decide_eq_true_2 by reflexivity; repeat split. }
  destruct H as (H1 & H2 & H3). repeat split; try assumption.
  - destruct ps as [|p ps]; [reflexivity |].
    unfold _handlePatchEvent, when.
    destruct (indexOf p "metadata" =? 0)%Z; [apply H3 | reflexivity].
  - destruct ps as [|p ps]; [reflexivity |].
    unfold _handlePatchEvent, when.
    destruct (indexOf p "metadata" =? 0)%Z; [apply H3 | reflexivity].
Qed.

(** X12. No notification without a fresh [toObject]: whenever a step of
    an entity's life (any method, a create-result, a server description)
    triggers or queues a notification on the entity, the cached result of
    [toObject] is gone when the step ends, also when the step throws. *)
Theorem notification_drops_cached_object
    (typeFromID : val -> string) (MY_DEVICES : string) (s : step) (w : World) :
  existsb is_notification (log (run_step typeFromID MY_DEVICES s w)) = true ->
  _toObject (this (world (run_step typeFromID MY_DEVICES s w))) = VNull.
Proof.
  destruct s as [c | r | d]; cbn [run_step].
  - destruct c; cbn [perform].
    + js_run; cbn; intros; try discriminate; reflexivity.
    + unfold setMetadataProperties. generalize (set_operations props).
      intros ops. js_unfold. cbn.
      destruct (stringify_operations _ _); cbn; discriminate.
    + js_run; cbn; intros; try discriminate; reflexivity.
    + unfold deleteMetadataProperties. generalize (delete_operations paths).
      intros ops. js_unfold. cbn.
      destruct (stringify_operations _ _); cbn; discriminate.
    + js_run; cbn; intros; try discriminate; reflexivity.
    + js_run; cbn; intros; try discriminate; reflexivity.
    + destruct paths; js_run; cbn; intros; try discriminate; reflexivity.
    + reflexivity.
    + reflexivity.
    + js_unfold_toObject. js_run; cbn; intros; try discriminate; reflexivity.
  - js_run; cbn; intros; try discriminate; reflexivity.
  - js_run; cbn; intros; try discriminate; reflexivity.
Qed.

Lemma notification_drops_cached_object_witness :
  _toObject (this (world (run_step sample_typeFromID "my_devices"
                            (Step_createResult (mkResult (VBool true) (VRef 1)))
                            (world (toObject sample_world))))) = VNull.
Proof.
  apply (notification_drops_cached_object sample_typeFromID "my_devices"
           (Step_createResult (mkResult (VBool true) (VRef 1)))
           (world (toObject sample_world))).
  reflexivity.
Defined.

(** X13. [toObject] caches the new object before it copies the metadata:
    when the first call throws (a metadata that has no JSON text, such as
    [undefined] or an object with a cycle), the object stays in the cache,
    and the next call returns it without an error: a new object of the
    store whose [metadata] is the entity's own value and no copy. *)
Theorem toObject_failed_copy_stays_cached (w : World) (e : exn) :
  truthy (_toObject (this w)) = false ->
  outcome (toObject w) = Throw e ->
  let first := toObject w in
  let n := length (heap w) in
  toObject (world first) = mkRun (world first) [] (Normal (VRef n)) /\
  this (world first) = set__toObject (VRef n) (this w) /\
  exists o, heap (world first) !! n = Some o /\
            field "metadata" o = metadata (this w).
Proof.
  destruct w as [c h]. cbn [this heap]. intros Hc.
  toObject_unfold. cbn. rewrite Hc. cbn.
  destruct (Util.clone _ _) as [[h' v']|e']; cbn; [discriminate |].
  intros _. repeat split.
  eexists. split.
  - now rewrite lookup_app_r, Nat.sub_diag by lia.
  - reflexivity.
Qed.

Lemma toObject_failed_copy_stays_cached_witness :
  toObject (world (toObject sample_cyclic_world)) =
  mkRun (world (toObject sample_cyclic_world)) [] (Normal (VRef 1)).
Proof.
  apply (proj1 (toObject_failed_copy_stays_cached
                  sample_cyclic_world TypeError eq_refl eq_refl)).
Defined.

(** ** Histories *)

Lemma step_keeps_destroyed
    (typeFromID : val -> string) (MY_DEVICES : string) (s : step) (w : World) :
  isDestroyed (this w) = true ->
  isDestroyed (this (world (run_step typeFromID MY_DEVICES s w))) = true.
Proof.
  destruct w as [c h]. cbn [this]. intros Hd.
  destruct c. cbn in Hd. subst.
  destruct s as [k | r | d]; cbn [run_step].
  - destruct k; cbn [perform].
    + js_run; cbn; reflexivity.
    + unfold setMetadataProperties. generalize (set_operations props).
      intros ops. js_unfold. cbn.
      destruct (stringify_operations _ _); cbn; reflexivity.
    + js_run; cbn; reflexivity.
    + unfold deleteMetadataProperties. generalize (delete_operations paths).
      intros ops. js_unfold. cbn.
      destruct (stringify_operations _ _); cbn; reflexivity.
    + js_run; cbn; reflexivity.
    + js_run; cbn; reflexivity.
    + destruct paths; js_run; cbn; reflexivity.
    + cbn. reflexivity.
    + cbn. reflexivity.
    + js_unfold_toObject. js_run; cbn; reflexivity.
  - js_run; cbn; reflexivity.
  - js_run; cbn; reflexivity.
Qed.

(** X16. Destruction is final: no method of the class, create-result or
    server description clears [isDestroyed], over any history and whichever
    steps of it throw. *)
Theorem destroyed_is_final
    (typeFromID : val -> string) (MY_DEVICES : string)
    (ss : list step) (w : World) :
  isDestroyed (this w) = true ->
  isDestroyed (this (fst (run_steps typeFromID MY_DEVICES ss w))) = true.
Proof.
  revert w. induction ss as [|s ss IH]; intros w Hd; [exact Hd |].
  cbn [run_steps].
  specialize (IH (world (run_step typeFromID MY_DEVICES s w))
                 (step_keeps_destroyed typeFromID MY_DEVICES s w Hd)).
  destruct (run_steps typeFromID MY_DEVICES ss _) as [w' l]. exact IH.
Qed.

Lemma destroyed_is_final_witness :
  isDestroyed
    (this (fst (run_steps sample_typeFromID "my_devices"
                  [Step_populateFromServer (VRef 1);
                   Step_call (Call_send 7 VUndefined);
                   Step_call Call_toObject]
                  sample_destroyed))) = true.
Proof.
  apply (destroyed_is_final sample_typeFromID "my_devices"
           [Step_populateFromServer (VRef 1);
            Step_call (Call_send 7 VUndefined);
            Step_call Call_toObject]
           sample_destroyed).
  reflexivity.
Defined.

Lemma create_requests_app (l l' : list effect) :
  create_requests (l ++ l') = create_requests l + create_requests l'.
Proof. unfold create_requests. now rewrite List.filter_app, length_app. Qed.

Lemma step_requests
    (typeFromID : val -> string) (MY_DEVICES : string) (s : step) (w : World) :
  let r := run_step typeFromID MY_DEVICES s w in
  (syncState (this w) <> NEW ->
   create_requests (log r) = 0 /\ syncState (this (world r)) <> NEW) /\
  create_requests (log r) <= 1 /\
  (create_requests (log r) = 1 -> syncState (this (world r)) <> NEW).
Proof.
  destruct w as [c h]. cbn [this].
  destruct c as [? ? ? ? ? ? st ? ? ? ? ?]. cbn [syncState].
  destruct s as [k | r | d]; cbn [run_step].
  - destruct k; cbn [perform].
    + js_run; cbn; sync_close.
    + unfold setMetadataProperties. generalize (set_operations props).
      intros ops. js_unfold. cbn.
      destruct (stringify_operations _ _); cbn; sync_close.
    + js_run; cbn; sync_close.
    + unfold deleteMetadataProperties. generalize (delete_operations paths).
      intros ops. js_unfold. cbn.
      destruct (stringify_operations _ _); cbn; sync_close.
    + js_run; cbn; sync_close.
    + js_run; cbn; sync_close.
    + destruct paths; js_run; cbn; sync_close.
    + cbn. sync_close.
    + cbn. sync_close.
    + js_unfold_toObject. js_run; cbn; sync_close.
  - js_run; cbn; sync_close.
  - js_run; cbn; sync_close.
Qed.

Lemma steps_not_new
    (typeFromID : val -> string) (MY_DEVICES : string)
    (ss : list step) (w : World) :
  syncState (this w) <> NEW ->
  create_requests (snd (run_steps typeFromID MY_DEVICES ss w)) = 0.
Proof.
  revert w. induction ss as [|s ss IH]; intros w Hn; [reflexivity |].
  cbn [run_steps].
  destruct (step_requests typeFromID MY_DEVICES s w) as [H _].
  destruct (H Hn) as [H0 Hn'].
  specialize (IH _ Hn').
  destruct (run_steps typeFromID MY_DEVICES ss _) as [w' l].
  cbn [snd] in *. rewrite create_requests_app. lia.
Qed.

(** X17. The create request goes out at most once in the life of an
    entity: over any history of calls, create-results and server
    descriptions, [sendSocketRequest] is called at most once, and never for
    an entity that does not start in the [NEW] state. *)
Theorem create_request_at_most_once
    (typeFromID : val -> string) (MY_DEVICES : string)
    (ss : list step) (w : World) :
  create_requests (snd (run_steps typeFromID MY_DEVICES ss w)) <= 1 /\
  (syncState (this w) <> NEW ->
   create_requests (snd (run_steps typeFromID MY_DEVICES ss w)) = 0).
Proof.
  split; [| apply steps_not_new].
  revert w. induction ss as [|s ss IH]; intros w; [cbn; lia |].
  cbn [run_steps].
  destruct (step_requests typeFromID MY_DEVICES s w) as (_ & Hle & Hone).
  pose proof (steps_not_new typeFromID MY_DEVICES ss
                (world (run_step typeFromID MY_DEVICES s w))) as Hrest.
  specialize (IH (world (run_step typeFromID MY_DEVICES s w))).
  destruct (run_steps typeFromID MY_DEVICES ss _) as [w' l].
  cbn [snd] in *. rewrite create_requests_app.
  destruct (create_requests (log (run_step typeFromID MY_DEVICES s w)))
    as [|[|n]] eqn:E; [lia | | lia].
  rewrite (Hrest (Hone eq_refl)). lia.
Qed.

Lemma create_request_at_most_once_witness :
  create_requests
    (snd (run_steps sample_typeFromID "my_devices"
            [Step_call (Call_send 7 VUndefined);
             Step_call (Call_send 8 VUndefined)]
            (world (send sample_typeFromID 6 VUndefined sample_world)))) = 0.
Proof.
  apply (proj2 (create_request_at_most_once sample_typeFromID "my_devices"
                  [Step_call (Call_send 7 VUndefined);
                   Step_call (Call_send 8 VUndefined)]
                  (world (send sample_typeFromID 6 VUndefined sample_world)))).
  discriminate.
Defined.

(** ** Deletion and late results *)

(** X14. [_delete] hands over the DELETE request before anything else and
    whatever [_deleted] does. When [_deleted] returns, the entity is
    destroyed at once, without waiting for the server, and a create-result
    or a failed metadata request that arrives later only reports the end of
    the request: no [sent], no [sent-error], no reload. When [_deleted]
    throws, the request is out but the entity is not destroyed by
    [_delete]. *)
Theorem delete_requests_then_destroys
    (typeFromID : val -> string) (_deleted : M unit)
    (queryStr : string) (w : World) :
  let r := _delete _deleted queryStr w in
  let request :=
    Syncable_xhr (LObj [("method", LVal (VStr "DELETE"));
                        ("url", LVal (VStr ("?" +:+ queryStr)))]) in
  (outcome (_deleted w) = Normal tt ->
   outcome r = Normal tt /\
   log r = request :: log (_deleted w) ++ [Root_destroy] /\
   isDestroyed (this (world r)) = true /\
   forall result,
     _createResult typeFromID result (world r) =
       mkRun (world r)
         [state_change typeFromID "ended" (id (this (world r)))] (Normal tt) /\
     setMetadataProperties_callback result (world r) =
       mkRun (world r) [] (Normal tt)) /\
  (forall e, outcome (_deleted w) = Throw e ->
   outcome r = Throw e /\
   log r = request :: log (_deleted w) /\
   world r = world (_deleted w)).
Proof.
  unfold _delete, destroy, bind, emit, modify. cbn.
  destruct (_deleted w) as [[c h] l [[]|e]]; cbn; split.
  - intros _. split; [reflexivity |]. split; [reflexivity |].
    split; [reflexivity |]. intros result. split; [reflexivity |].
    unfold setMetadataProperties_callback, bind, gets, ret. cbn.
    now destruct (truthy (success result)).
  - intros e. discriminate.
  - discriminate.
  - intros e' [= <-]. repeat split.
Qed.

Lemma delete_requests_then_destroys_witness :
  outcome (_delete (ret tt) "mode=all_participants" sample_world) = Normal tt /\
  isDestroyed
    (this (world (_delete (ret tt) "mode=all_participants" sample_world))) = true.
Proof.
  pose proof (proj1 (delete_requests_then_destroys sample_typeFromID (ret tt)
                       "mode=all_participants" sample_world) eq_refl) as H.
  split; [exact (proj1 H) | exact (proj1 (proj2 (proj2 H)))].
Defined.

(** ** Listening for [loaded] *)

(** X15. [on] always ends by registering with the base class exactly what
    it was given. Before that it defers a call of the [loaded] handler, and
    only of that handler, exactly when the entity is not loading and the
    subscription names [<prefix>:loaded]: as the event name itself, or as a
    key of an event map with a truthy value. While the entity is loading,
    and for every other event name, [on] is the base class's [on]. *)
Theorem on_replays_loaded_when_not_loading
    (Util_defer : val -> val -> M unit)
    (super_on : val -> val -> val -> M unit)
    (isLoading : Container -> bool)
    (name callback context : val) (w : World) :
  let on' := on Util_defer super_on isLoading name callback context in
  let evtName := eventPrefix (this w) +:+ ":loaded" in
  let register := super_on name callback context in
  (isLoading (this w) = true -> on' w = register w) /\
  (forall s, name = VStr s -> s <> evtName -> on' w = register w) /\
  (name = VStr evtName -> isLoading (this w) = false ->
   on' w = (Util_defer callback context ;; register)%js w) /\
  (forall l handler,
     name = VRef l -> isLoading (this w) = false ->
     get_prop (heap w) name evtName = Normal handler ->
     on' w = (if truthy handler
              then (Util_defer handler context ;; register)%js w
              else register w)).
Proof.
  destruct w as [c h]. cbn [this heap].
  repeat split.
  - intros Hl. unfold on, bind, gets, lift, when, ret. cbn.
    destruct (strict_eq name _); cbn; rewrite ?Hl; cbn;
      [now destruct (super_on name callback context _) |].
    destruct (truthy name) eqn:Ht; cbn; rewrite ?Hl, ?andb_false_r; cbn;
      [| now destruct (super_on name callback context _)].
    destruct name; try discriminate Ht; cbn; rewrite ?Hl, ?andb_false_r; cbn;
      now destruct (super_on _ callback context _).
  - intros s -> Hs. unfold on, bind, gets, lift, when, ret. cbn.
    rewrite (proj2 (strict_eq_false _ _)) by congruence. cbn.
    destruct (bool_decide (s = EmptyString)) eqn:E; cbn; rewrite ?E; cbn;
      now destruct (super_on (VStr s) callback context _).
  - intros -> Hl. unfold on, bind, gets, lift, when, ret. cbn.
    rewrite (proj2 (strict_eq_true _ _) eq_refl). cbn. rewrite Hl. cbn.
    destruct (Util_defer callback context _) as [w1 l1 [[]|e]]; cbn;
      [| reflexivity].
    now destruct (super_on _ callback context w1).
  - intros l handler -> Hl Hh. unfold on, bind, gets, lift, when, ret. cbn.
    cbn in Hh. injection Hh as <-.
    rewrite (proj2 (strict_eq_false (VRef l) _)) by discriminate.
    cbn. rewrite Hl. cbn. rewrite andb_true_r.
    destruct (truthy _); cbn.
    + destruct (Util_defer _ context _) as [w1 l1 [[]|e]]; cbn;
        [| reflexivity].
      now destruct (super_on _ callback context w1).
    + now destruct (super_on _ callback context _).
Qed.

Lemma on_replays_loaded_when_not_loading_witness :
  on sample_defer sample_super_on (fun _ => false) (VRef 1) VUndefined VNull
    sample_listener_world =
  mkRun sample_listener_world
    [Root_triggerAsync "deferred" (LArr [LVal (VRef 0); LVal VNull])]
    (Normal tt).
Proof.
  apply (proj2 (proj2 (proj2
           (on_replays_loaded_when_not_loading
              sample_defer sample_super_on (fun _ => false)
              (VRef 1) VUndefined VNull sample_listener_world)))
           1%nat (VRef 0) eq_refl eq_refl eq_refl).
Defined.
